(** * Virtual try-on: the proxy endpoint and the client form controller

    A shallow embedding of [src/app/api/tryon/route.ts] (the [POST] handler
    and [arrayBufferToBase64]) and of the state handlers of
    [src/app/page.tsx] ([handleFileChange], [handleSubmit], [handleReset]),
    with the properties of the specification stated over them. *)

From Stdlib Require Import NArith ZArith List String Ascii Bool Lia QArith.
From Stdlib Require Import Strings.Byte.
Import ListNotations.

Local Open Scope string_scope.

(** ** JavaScript values shared by both files *)

Module Js.

(** What a [catch] clause receives: an [Error] object with its [message],
    or any other thrown value, kept as its [String(...)] rendering. *)
Inductive Thrown : Type :=
| ErrorObj (message : string)
| NonError (rendering : string).

(** [err instanceof Error ? err.message : fallback] *)
Definition message_or (fallback : string) (e : Thrown) : string :=
  match e with
  | ErrorObj m => m
  | NonError _ => fallback
  end.

(** [err instanceof Error ? err.message : String(err)] *)
Definition message_or_string (e : Thrown) : string :=
  match e with
  | ErrorObj m => m
  | NonError r => r
  end.

(** Truthiness of a [string | null | undefined] value. *)
Definition truthy (v : option string) : bool :=
  match v with
  | Some s => negb (String.eqb s "")
  | None => false
  end.

(** [v || d] for a string-valued [v]. *)
Definition or_default (v : option string) (d : string) : string :=
  if truthy v then match v with Some s => s | None => d end else d.

(** [s.includes(t)] *)
Fixpoint includes (s t : string) : bool :=
  match s with
  | EmptyString => String.eqb t ""
  | String _ s' => String.prefix t s || includes s' t
  end.

End Js.

(** ** Base64 (RFC 4648, section 4) and the platform's [btoa] *)

Module Base64.

Local Open Scope N_scope.

(** The base 64 alphabet of RFC 4648, table 1. *)
Definition alphabet : string :=
  "ABCDEFGHIJKLMNOPQRSTUVWXYZabcdefghijklmnopqrstuvwxyz0123456789+/".

Definition pad : ascii := "="%char.

(** The character of a 6-bit group. *)
Definition encode_sextet (v : N) : ascii :=
  match String.get (N.to_nat v) alphabet with
  | Some c => c
  | None => pad
  end.

(** The 6-bit group of a character, read off the character code. *)
Definition decode_sextet (c : ascii) : option N :=
  let k := N_of_ascii c in
  if (65 <=? k) && (k <=? 90) then Some (k - 65)
  else if (97 <=? k) && (k <=? 122) then Some (k - 71)
  else if (48 <=? k) && (k <=? 57) then Some (k + 4)
  else if k =? 43 then Some 62
  else if k =? 47 then Some 63
  else None.

(** Encoding of a sequence of octets: every 24-bit group of three octets is
    read as four 6-bit groups; a final group of 8 bits is padded with zero
    bits to 12 and followed by two pad characters, a final group of 16 bits
    is padded to 18 and followed by one. *)
Fixpoint encode (octets : list N) : string :=
  match octets with
  | [] => ""
  | [a] =>
      let n := a * 16 in
      String (encode_sextet (n / 64))
        (String (encode_sextet (n mod 64))
           (String pad (String pad "")))
  | [a; b] =>
      let n := (a * 256 + b) * 4 in
      String (encode_sextet (n / 4096))
        (String (encode_sextet ((n / 64) mod 64))
           (String (encode_sextet (n mod 64))
              (String pad "")))
  | a :: b :: c :: rest =>
      let n := a * 65536 + b * 256 + c in
      String (encode_sextet (n / 262144))
        (String (encode_sextet ((n / 4096) mod 64))
           (String (encode_sextet ((n / 64) mod 64))
              (String (encode_sextet (n mod 64))
                 (encode rest))))
  end.

(** Decoding, strict: the length is a multiple of four, pad characters
    appear only at the end of the last group, and the bits dropped from a
    padded group are zero. *)
Fixpoint decode (s : string) : option (list N) :=
  match s with
  | "" => Some []
  | String c1 (String c2 (String c3 (String c4 rest))) =>
      match decode_sextet c1, decode_sextet c2 with
      | Some s1, Some s2 =>
          match decode_sextet c3, decode_sextet c4 with
          | Some s3, Some s4 =>
              let n := s1 * 262144 + s2 * 4096 + s3 * 64 + s4 in
              match decode rest with
              | Some tl => Some (n / 65536 :: (n / 256) mod 256 :: n mod 256 :: tl)
              | None => None
              end
          | Some s3, None =>
              let n := s1 * 4096 + s2 * 64 + s3 in
              if Ascii.eqb c4 pad && String.eqb rest "" && (n mod 4 =? 0)
              then Some [n / 1024; (n / 4) mod 256]
              else None
          | None, _ =>
              let n := s1 * 64 + s2 in
              if Ascii.eqb c3 pad && Ascii.eqb c4 pad && String.eqb rest ""
                 && (n mod 16 =? 0)
              then Some [n / 16]
              else None
          end
      | _, _ => None
      end
  | _ => None
  end.

(** Octets back to bytes; [None] when a value does not fit in eight bits. *)
Fixpoint to_bytes (octets : list N) : option (list byte) :=
  match octets with
  | [] => Some []
  | o :: tl =>
      match Byte.of_N o, to_bytes tl with
      | Some b, Some bs => Some (b :: bs)
      | _, _ => None
      end
  end.

Definition decode_bytes (s : string) : option (list byte) :=
  match decode s with
  | Some octets => to_bytes octets
  | None => None
  end.

(** A JavaScript string as its sequence of UTF-16 code units. *)
Definition code_units := list N.

(** [String.fromCharCode(n)]: the one-unit string of [n] modulo 2^16. *)
Definition fromCharCode (n : N) : code_units := [n mod 65536].

(** The platform's [btoa], after the HTML Standard: it throws an
    [InvalidCharacterError] when a code unit exceeds U+00FF, and otherwise
    returns the base64 encoding of the octets the code units stand for. *)
Definition btoa (data : code_units) : Js.Thrown + string :=
  if forallb (fun u => u <=? 255) data
  then inr (encode data)
  else inl (Js.ErrorObj "Invalid character").

(** *** The encoding in the words of RFC 4648, section 4

    The input is a stream of bits, most significant bit of each octet
    first. A 24-bit group of three octets is read as four 6-bit groups, each
    translated to a character of the alphabet. When only 8 bits remain they
    are padded with zero bits to 12, giving two characters and two pad
    characters; when 16 bits remain they are padded to 18, giving three
    characters and one pad character. *)

Definition bits_of_byte (b : byte) : list bool :=
  let '(b0, (b1, (b2, (b3, (b4, (b5, (b6, b7))))))) := Byte.to_bits b in
  [b7; b6; b5; b4; b3; b2; b1; b0].

(** The number a sequence of bits denotes, most significant bit first. *)
Definition bits_value (bs : list bool) : N :=
  fold_left (fun acc b => 2 * acc + N.b2n b) bs 0.

Fixpoint groups6 (bits : list bool) : list (list bool) :=
  match bits with
  | b1 :: b2 :: b3 :: b4 :: b5 :: b6 :: rest =>
      [b1; b2; b3; b4; b5; b6] :: groups6 rest
  | _ => []
  end.

Definition chars_of_bits (bits : list bool) : string :=
  string_of_list_ascii
    (map (fun g => encode_sextet (bits_value g)) (groups6 bits)).

Fixpoint rfc4648_encode (input : list byte) : string :=
  match input with
  | [] => ""
  | [a] =>
      chars_of_bits (bits_of_byte a ++ [false; false; false; false])
      ++ "=="
  | [a; b] =>
      chars_of_bits (bits_of_byte a ++ bits_of_byte b ++ [false; false])
      ++ "="
  | a :: b :: c :: rest =>
      chars_of_bits (bits_of_byte a ++ bits_of_byte b ++ bits_of_byte c)
      ++ rfc4648_encode rest
  end.

End Base64.

(** ** The proxy endpoint ([src/app/api/tryon/route.ts]) *)

Module Route.

(** [arrayBufferToBase64]: the bytes of the buffer are appended, one code
    unit each, to a binary string, which [btoa] then encodes. *)
Definition arrayBufferToBase64 (buffer : list byte) : Js.Thrown + string :=
  let bytes := map Byte.to_N buffer in
  let binary :=
    fold_left (fun binary b => (binary ++ Base64.fromCharCode b)%list) bytes [] in
  Base64.btoa binary.

Definition MODEL_ID : string := "gemini-2.0-flash-exp-image-generation".

(** *** Data of the request and of the model's interface *)

(** An uploaded file, as the handler uses it: its declared MIME type and
    its content. *)
Record File : Type := { type : string; bytes : list byte }.

Inductive FormDataEntryValue : Type :=
| EntryFile (f : File)
| EntryString (s : string).

Definition FormData : Type := list (string * FormDataEntryValue).

(** [formData.get(name)]: the first entry of that name, or [null]. *)
Fixpoint FormData_get (name : string) (fd : FormData)
  : option FormDataEntryValue :=
  match fd with
  | [] => None
  | (k, v) :: tl => if String.eqb k name then Some v else FormData_get name tl
  end.

(** The request: [req.formData()] either rejects or yields the form. *)
Record NextRequest : Type := { formData : Js.Thrown + FormData }.

Record Blob : Type := { mimeType : option string; data : option string }.
Record Part : Type := { inlineData : option Blob; text : option string }.
Record Content : Type := { role : option string; parts : option (list Part) }.
Record Candidate : Type := { content : option Content }.
Record PromptFeedback : Type := { blockReason : option string }.
Record GenerateContentResponse : Type :=
  { candidates : option (list Candidate);
    promptFeedback : option PromptFeedback }.

Record GenerateContentConfig : Type :=
  { temperature : Q; topP : Q; topK : Z; responseModalities : list string }.
Record GenerateContentParameters : Type :=
  { model : string; contents : list Content; config : GenerateContentConfig }.

(** The JSON bodies the handler answers with. *)
Inductive Body : Type :=
| ErrorBody (error : string) (details : option string)
| ResultBody (image : option string) (description : string).

Record NextResponse : Type := { status : Z; body : Body }.

(** [NextResponse.json(body, { status })] and [NextResponse.json(body)] *)
Definition json_with (b : Body) (st : Z) : NextResponse :=
  {| status := st; body := b |}.
Definition json (b : Body) : NextResponse := json_with b 200.

(** *** Effects: exceptions and the calls made to the model

    The handler's [console] output is left out: it changes neither the
    answer nor the calls. *)

(** The calls issued to the external model so far, oldest first. *)
Definition Calls : Type := list GenerateContentParameters.

Definition Eff (A : Type) : Type := Calls -> (Js.Thrown + A) * Calls.

Definition ret {A} (a : A) : Eff A := fun w => (inr a, w).

Definition throw {A} (e : Js.Thrown) : Eff A := fun w => (inl e, w).

Definition bind {A B} (c : Eff A) (k : A -> Eff B) : Eff B :=
  fun w =>
    match c w with
    | (inr a, w') => k a w'
    | (inl e, w') => (inl e, w')
    end.

Definition try_catch {A} (c : Eff A) (handler : Js.Thrown -> Eff A) : Eff A :=
  fun w =>
    match c w with
    | (inr a, w') => (inr a, w')
    | (inl e, w') => handler e w'
    end.

Definition lift {A} (r : Js.Thrown + A) : Eff A :=
  match r with
  | inr a => ret a
  | inl e => throw e
  end.

Notation "x <- c ;; k" := (bind c (fun x => k))
  (at level 61, c at next level, right associativity).

(** [new Error(message)] thrown. *)
Definition throw_Error {A} (message : string) : Eff A :=
  throw (Js.ErrorObj message).

Definition improvedPrompt : string := "VIRTUAL TRY-ON TASK:

INPUT IMAGES:
1. PERSON IMAGE: Contains the target person whose identity must be PERFECTLY preserved
2. CLOTHING IMAGE: Contains the clothing item to be virtually worn

CRITICAL REQUIREMENTS (NON-NEGOTIABLE):

🔒 FACE IDENTITY LOCK (ABSOLUTE PRIORITY):
- The person's face, facial features, skin tone, and expression MUST remain 100% identical to the input person image
- DO NOT change, modify, or reinterpret ANY facial characteristics
- DO NOT blend or mix features from the clothing image model
- Preserve the exact eye color, nose shape, lip shape, jawline, and all unique facial features
- If the person has distinctive features (freckles, moles, scars), keep them exactly as they are

👤 BODY & POSE PRESERVATION:
- Keep the exact same body pose and positioning as the input person image
- Maintain the same body proportions and build
- Preserve hair style and color exactly as shown in the person image
- Keep any visible accessories (jewelry, watches, etc.) from the person image

👔 CLOTHING INTEGRATION:
- Extract ONLY the clothing item from the clothing image (ignore the model wearing it)
- Apply the exact colors, patterns, textures, and style of the clothing
- Ensure proper fitting and realistic draping on the person's body
- Handle occlusion naturally where clothing covers the person

🖼️ BACKGROUND HANDLING:
- Create a clean, neutral background (studio-like or simple environment)
- Ensure proper lighting that matches both the person and clothing naturally
- Remove the original backgrounds from both input images

OUTPUT SPECIFICATION:
Generate a single photorealistic image showing the EXACT same person from the input image wearing the clothing item, with perfect facial identity preservation and realistic clothing integration.

WHAT NOT TO DO:
❌ Do not alter the person's face in any way
❌ Do not use facial features from the clothing image model
❌ Do not change the person's hair, skin tone, or body structure
❌ Do not modify the clothing colors or patterns
❌ Do not create unrealistic proportions or poses".

(** Truthiness of what [formData.get] returned. *)
Definition entry_truthy (v : option FormDataEntryValue) : bool :=
  match v with
  | Some (EntryFile _) => true
  | Some (EntryString s) => negb (String.eqb s "")
  | None => false
  end.

(** [await v.arrayBuffer()]: only a file has the method; on a string the
    call is a [TypeError] (the message is the engine's). *)
Definition arrayBuffer (name : string) (v : option FormDataEntryValue)
  : Eff (list byte) :=
  match v with
  | Some (EntryFile f) => ret (bytes f)
  | _ => throw_Error (name ++ ".arrayBuffer is not a function")
  end.

(** [v.type] *)
Definition entry_type (v : option FormDataEntryValue) : option string :=
  match v with
  | Some (EntryFile f) => Some (type f)
  | _ => None
  end.

Definition text_part (s : string) : Part :=
  {| inlineData := None; text := Some s |}.

Definition inline_part (mime base64 : string) : Part :=
  {| inlineData := Some {| mimeType := Some mime; data := Some base64 |};
     text := None |}.

(** The values the response loop assigns. *)
Record Extracted : Type :=
  { textResponse : option string;
    imageData : option string;
    imageMimeType : string }.

Definition extracted_init : Extracted :=
  {| textResponse := None; imageData := None; imageMimeType := "image/png" |}.

(** The body of [for (const part of parts)]. *)
Definition extract_step (acc : Extracted) (part : Part) : Extracted :=
  match inlineData part with
  | Some blob =>
      {| textResponse := textResponse acc;
         imageData := data blob;
         imageMimeType := Js.or_default (mimeType blob) "image/png" |}
  | None =>
      if Js.truthy (text part)
      then {| textResponse := text part;
              imageData := imageData acc;
              imageMimeType := imageMimeType acc |}
      else acc
  end.

Definition extract (ps : list Part) : Extracted :=
  fold_left extract_step ps extracted_init.

(** [response.candidates[0]?.content?.parts] *)
Definition first_parts (cs : list Candidate) : option (list Part) :=
  match cs with
  | c :: _ => match content c with Some ct => parts ct | None => None end
  | [] => None
  end.

(** [response?.promptFeedback?.blockReason] *)
Definition safetyFeedback (response : GenerateContentResponse)
  : option string :=
  match promptFeedback response with
  | Some fb => blockReason fb
  | None => None
  end.

(** The success body built from the extracted values. *)
Definition result_body (x : Extracted) : Body :=
  ResultBody
    (if Js.truthy (imageData x)
     then Some ("data:" ++ imageMimeType x ++ ";base64,"
                  ++ match imageData x with Some d => d | None => "" end)
     else None)
    (Js.or_default (textResponse x) "AI description not available.").

Definition build_contents (userImageMimeType userImageBase64
                           clothingImageMimeType clothingImageBase64 : string)
  : list Content :=
  [ {| role := Some "user";
       parts := Some
         [ text_part "PERSON IMAGE (preserve this person's identity exactly):";
           inline_part userImageMimeType userImageBase64;
           text_part "CLOTHING IMAGE (extract only the clothing item):";
           inline_part clothingImageMimeType clothingImageBase64;
           text_part improvedPrompt ] |} ].

(** The object passed to [ai.models.generateContent]. *)
Definition generateContent_params
    (userImageMimeType userImageBase64
     clothingImageMimeType clothingImageBase64 : string)
  : GenerateContentParameters :=
  {| model := MODEL_ID;
     contents :=
       build_contents userImageMimeType userImageBase64
         clothingImageMimeType clothingImageBase64;
     config :=
       {| temperature := 1 # 10;
          topP := 8 # 10;
          topK := 20;
          responseModalities := ["Text"; "Image"] |} |}.

(** The statements between the model call and the final [return]: the
    extracted values, or the error thrown for a response with no
    candidates. *)
Definition process_response (response : GenerateContentResponse)
  : Js.Thrown + Extracted :=
  match candidates response with
  | Some (c :: cs) =>
      match first_parts (c :: cs) with
      | Some ps => inr (extract ps)
      | None => inr extracted_init
      end
  | _ =>
      match safetyFeedback response with
      | Some reason =>
          if Js.truthy (Some reason)
          then inl (Js.ErrorObj
                      ("Content generation failed due to safety settings: "
                         ++ reason))
          else inl (Js.ErrorObj
                      "Received an unexpected or empty response from the API.")
      | None =>
          inl (Js.ErrorObj
                 "Received an unexpected or empty response from the API.")
      end
  end.

Section Handler.

(** [ai.models.generateContent]: the external model, as the function from
    the request sent to what the awaited call yields. *)
Variable generateContent :
  GenerateContentParameters -> Js.Thrown + GenerateContentResponse.

Definition call_generateContent (p : GenerateContentParameters)
  : Eff GenerateContentResponse :=
  fun w => (generateContent p, (w ++ [p])%list).

Definition POST (req : NextRequest) : Eff NextResponse :=
  match formData req with
  | inl formError =>
      ret (json_with
             (ErrorBody "Invalid request body: Failed to parse FormData."
                (Some (Js.message_or_string formError)))
             400)
  | inr formData =>
      try_catch
        (let userImageFile := FormData_get "userImage" formData in
         let clothingImageFile := FormData_get "clothingImage" formData in
         if negb (entry_truthy userImageFile)
            || negb (entry_truthy clothingImageFile)
         then
           ret (json_with
                  (ErrorBody
                     "Both userImage and clothingImage files are required"
                     None)
                  400)
         else
           userImageBuffer <- arrayBuffer "userImageFile" userImageFile ;;
           userImageBase64 <- lift (arrayBufferToBase64 userImageBuffer) ;;
           let userImageMimeType :=
             Js.or_default (entry_type userImageFile) "image/jpeg" in
           clothingImageBuffer <-
             arrayBuffer "clothingImageFile" clothingImageFile ;;
           clothingImageBase64 <-
             lift (arrayBufferToBase64 clothingImageBuffer) ;;
           let clothingImageMimeType :=
             Js.or_default (entry_type clothingImageFile) "image/png" in
           response <-
             try_catch
               (call_generateContent
                  (generateContent_params
                     userImageMimeType userImageBase64
                     clothingImageMimeType clothingImageBase64))
               (fun error =>
                  match error with
                  | Js.ErrorObj m =>
                      throw_Error ("Failed during API call: " ++ m)
                  | Js.NonError _ =>
                      throw_Error
                        "An unknown error occurred during the API call"
                  end) ;;
           x <- lift (process_response response) ;;
           ret (json (result_body x)))
        (fun error =>
           ret (json_with
                  (ErrorBody "Failed to process virtual try-on request"
                     (Some (Js.message_or_string error)))
                  500))
  end.

End Handler.

(** The request the handler sends for a user file [u] and a clothing file
    [c]: what [POST] passes to [generateContent_params] for them. *)
Definition request_for (u c : File) : GenerateContentParameters :=
  generateContent_params
    (Js.or_default (Some (type u)) "image/jpeg")
    (Base64.encode (map Byte.to_N (bytes u)))
    (Js.or_default (Some (type c)) "image/png")
    (Base64.encode (map Byte.to_N (bytes c))).

(** *** Reading the parts of a candidate *)

(** A segment carrying inline data, and a segment read as text: one with
    no inline data and a non-empty [text]. *)
Definition has_inline (p : Part) : bool :=
  match inlineData p with Some _ => true | None => false end.

Definition is_text (p : Part) : bool :=
  negb (has_inline p) && Js.truthy (text p).

Definition first_inline (ps : list Part) : option Blob :=
  match find has_inline ps with Some p => inlineData p | None => None end.

Definition first_text (ps : list Part) : option string :=
  match find is_text ps with Some p => text p | None => None end.

Definition last_inline (ps : list Part) : option Blob :=
  first_inline (rev ps).

Definition last_text (ps : list Part) : option string :=
  first_text (rev ps).

End Route.

(** ** The client form controller ([src/app/page.tsx]) *)

Module Page.

Local Open Scope Z_scope.

(** A file picked in the browser: the handlers read its [size] only. *)
Record File : Type := { name : string; size : Z; type : string }.

(** The component's [useState] cells. *)
Record State : Type :=
  { userImage : option File;
    clothingImage : option File;
    userImagePreview : option string;
    clothingImagePreview : option string;
    resultImageUrl : option string;
    isLoading : bool;
    error : option string }.

Definition initial : State :=
  {| userImage := None; clothingImage := None;
     userImagePreview := None; clothingImagePreview := None;
     resultImageUrl := None; isLoading := false; error := None |}.

Definition setUserImage (v : option File) (st : State) : State :=
  {| userImage := v; clothingImage := clothingImage st;
     userImagePreview := userImagePreview st;
     clothingImagePreview := clothingImagePreview st;
     resultImageUrl := resultImageUrl st; isLoading := isLoading st;
     error := error st |}.

Definition setClothingImage (v : option File) (st : State) : State :=
  {| userImage := userImage st; clothingImage := v;
     userImagePreview := userImagePreview st;
     clothingImagePreview := clothingImagePreview st;
     resultImageUrl := resultImageUrl st; isLoading := isLoading st;
     error := error st |}.

Definition setUserImagePreview (v : option string) (st : State) : State :=
  {| userImage := userImage st; clothingImage := clothingImage st;
     userImagePreview := v;
     clothingImagePreview := clothingImagePreview st;
     resultImageUrl := resultImageUrl st; isLoading := isLoading st;
     error := error st |}.

Definition setClothingImagePreview (v : option string) (st : State) : State :=
  {| userImage := userImage st; clothingImage := clothingImage st;
     userImagePreview := userImagePreview st;
     clothingImagePreview := v;
     resultImageUrl := resultImageUrl st; isLoading := isLoading st;
     error := error st |}.

Definition setImageUrl (v : option string) (st : State) : State :=
  {| userImage := userImage st; clothingImage := clothingImage st;
     userImagePreview := userImagePreview st;
     clothingImagePreview := clothingImagePreview st;
     resultImageUrl := v; isLoading := isLoading st;
     error := error st |}.

Definition setIsLoading (v : bool) (st : State) : State :=
  {| userImage := userImage st; clothingImage := clothingImage st;
     userImagePreview := userImagePreview st;
     clothingImagePreview := clothingImagePreview st;
     resultImageUrl := resultImageUrl st; isLoading := v;
     error := error st |}.

Definition setError (v : option string) (st : State) : State :=
  {| userImage := userImage st; clothingImage := clothingImage st;
     userImagePreview := userImagePreview st;
     clothingImagePreview := clothingImagePreview st;
     resultImageUrl := resultImageUrl st; isLoading := isLoading st;
     error := v |}.

(** *** File selection *)

(** A [FileReader] started by [readAsDataURL(file)], with the [onloadend]
    callback it was given. *)
Record Reader : Type :=
  { reading : File;
    onloadend : option string -> State -> State }.

Definition size_error : string :=
  "File size too large. Please use images smaller than 10MB.".

(** [handleFileChange(event, setImage, setPreview)], with
    [event.target.files?.[0]] passed as [file0]. The result is the state
    after the handler and the reader it started, if any. *)
Definition handleFileChange (file0 : option File)
    (setImage : option File -> State -> State)
    (setPreview : option string -> State -> State)
    (st : State) : State * option Reader :=
  match file0 with
  | Some file =>
      if size file >? 10 * 1024 * 1024
      then (setError (Some size_error) st, None)
      else (setError None (setImage (Some file) st),
            Some {| reading := file;
                    onloadend := fun result => setPreview result |})
  | None => (setPreview None (setImage None st), None)
  end.

(** The two [onChange] handlers of the file inputs. *)
Definition onUserImageChange (file0 : option File) (st : State)
  : State * option Reader :=
  handleFileChange file0 setUserImage setUserImagePreview st.

Definition onClothingImageChange (file0 : option File) (st : State)
  : State * option Reader :=
  handleFileChange file0 setClothingImage setClothingImagePreview st.

(** The reader finishes: [reader.result] is the data URL, or [null] when
    the read failed; the callback stores it. *)
Definition reader_done (r : Reader) (result : option string) (st : State)
  : State :=
  onloadend r result st.

(** *** Submission *)

(** The multipart body: the fields appended, in order. *)
Definition FormData : Type := list (string * File).

Record FetchRequest : Type :=
  { url : string; method : string; body : FormData }.

(** The parsed JSON of the answer, as far as the handler reads it. *)
Record ApiResult : Type :=
  { result_error : option string;
    result_image : option string;
    result_description : option string }.

(** The answer to [fetch]: [response.json()] either rejects or yields the
    parsed body. *)
Record Response : Type :=
  { ok : bool; statusText : string; json : Js.Thrown + ApiResult }.

(** What the awaited [fetch] yields: a rejection or a response. *)
Definition FetchOutcome : Type := (Js.Thrown + Response)%type.

Definition validation_error : string :=
  "Please upload both your photo and a clothing item image.".

Definition no_image_error : string :=
  "API did not return a generated image. This might be due to safety filters or processing issues.".

(** The handler up to the [fetch] call: the guard, the three state updates
    and the request issued, if any. *)
Definition handleSubmit_begin (st : State) : State * option FetchRequest :=
  match userImage st, clothingImage st with
  | Some userImage, Some clothingImage =>
      (setImageUrl None (setError None (setIsLoading true st)),
       Some {| url := "/api/tryon"; method := "POST";
               body := [("userImage"%string, userImage);
                        ("clothingImage"%string, clothingImage)] |})
  | _, _ => (setError (Some validation_error) st, None)
  end.

(** The body of the [try] block after the [fetch]: the state it leaves, or
    the value it throws. *)
Definition try_block (outcome : FetchOutcome) (st : State)
  : Js.Thrown + State :=
  match outcome with
  | inl e => inl e
  | inr response =>
      match json response with
      | inl e => inl e
      | inr result =>
          if negb (ok response)
          then inl (Js.ErrorObj
                      (Js.or_default (result_error result)
                         ("API Error: " ++ statusText response)))
          else if Js.truthy (result_image result)
          then inr (setImageUrl (result_image result) st)
          else inl (Js.ErrorObj no_image_error)
      end
  end.

Definition catch_block (err : Js.Thrown) (st : State) : State :=
  let errorMessage :=
    Js.message_or "An error occurred during image generation." err in
  setImageUrl None (setError (Some errorMessage) st).

Definition finally_block (st : State) : State := setIsLoading false st.

(** The handler after the [fetch] has settled. *)
Definition handleSubmit_settle (outcome : FetchOutcome) (st : State)
  : State :=
  finally_block
    (match try_block outcome st with
     | inr st' => st'
     | inl err => catch_block err st
     end).

(** One run of [handleSubmit] with no other event in between; [network]
    answers the request. The requests issued are returned with the state. *)
Definition handleSubmit (network : FetchRequest -> FetchOutcome) (st : State)
  : State * list FetchRequest :=
  match handleSubmit_begin st with
  | (st1, Some request) =>
      (handleSubmit_settle (network request) st1, [request])
  | (st1, None) => (st1, [])
  end.

(** The image a settled [fetch] delivers: the [image] field of a parsed
    body of a response with [ok] status, when it is non-empty. *)
Definition generated_image (outcome : FetchOutcome) : option string :=
  match outcome with
  | inr response =>
      match json response with
      | inr result =>
          if ok response && Js.truthy (result_image result)
          then result_image result
          else None
      | inl _ => None
      end
  | inl _ => None
  end.

(** *** Reset *)

(** The values of the two file inputs, next to the state. *)
Record Inputs : Type := { userFileInput : string; clothingFileInput : string }.

Definition handleReset (st : State) (inputs : Inputs) : State * Inputs :=
  (setIsLoading false
     (setError None
        (setImageUrl None
           (setClothingImagePreview None
              (setUserImagePreview None
                 (setClothingImage None (setUserImage None st)))))),
   {| userFileInput := ""; clothingFileInput := "" |}).

End Page.

(** ** Concrete requests, responses and client states *)

Module Samples.

Import Route.

Definition person : File :=
  {| type := "image/webp"; bytes := list_byte_of_string "foo" |}.

Definition garment : File :=
  {| type := ""; bytes := list_byte_of_string "foobar" |}.

Definition form : FormData :=
  [("userImage", EntryFile person); ("clothingImage", EntryFile garment)].

Definition form_without_garment : FormData :=
  [("userImage", EntryFile person)].

(** A model that answers every request with [r]. *)
Definition answering (r : GenerateContentResponse)
  : GenerateContentParameters -> Js.Thrown + GenerateContentResponse :=
  fun _ => inr r.

Definition one_candidate (ps : list Part) : GenerateContentResponse :=
  {| candidates :=
       Some [ {| content := Some {| role := Some "model"; parts := Some ps |} |} ];
     promptFeedback := None |}.

Definition image_A : Blob :=
  {| mimeType := Some "image/png"; data := Some "AAAA" |}.

(** Two inline-data segments and two text segments. *)
Definition two_images : list Part :=
  [ inline_part "image/png" "AAAA"; text_part "front view";
    inline_part "image/jpeg" "BBBB"; text_part "back view" ].

(** One inline-data segment whose data is empty, and one text segment. *)
Definition empty_image : list Part :=
  [ inline_part "image/png" ""; text_part "no image today" ].

Definition one_image_one_text : list Part :=
  [ text_part "Here is the result."; inline_part "image/png" "AAAA" ].

Definition blocked : GenerateContentResponse :=
  {| candidates := None;
     promptFeedback := Some {| blockReason := Some "SAFETY" |} |}.

Definition empty_response : GenerateContentResponse :=
  {| candidates := Some []; promptFeedback := None |}.

(** An upload of two files with no content. *)
Definition empty_file : File := {| type := "image/png"; bytes := [] |}.

Definition empty_form : FormData :=
  [("userImage", EntryFile empty_file);
   ("clothingImage", EntryFile empty_file)].

(** Files picked in the browser. *)
Definition photo : Page.File :=
  {| Page.name := "me.jpg"; Page.size := 2048; Page.type := "image/jpeg" |}.

Definition shirt : Page.File :=
  {| Page.name := "shirt.png"; Page.size := 4096; Page.type := "image/png" |}.

Definition ten_megabytes : Page.File :=
  {| Page.name := "large.png"; Page.size := 10485760;
     Page.type := "image/png" |}.

Definition eleven_megabytes : Page.File :=
  {| Page.name := "huge.png"; Page.size := 11534336;
     Page.type := "image/png" |}.

Definition empty_photo : Page.File :=
  {| Page.name := "empty.jpg"; Page.size := 0; Page.type := "image/jpeg" |}.

Definition empty_shirt : Page.File :=
  {| Page.name := "empty.png"; Page.size := 0; Page.type := "image/png" |}.

(** A network whose answer is always a generated image. *)
Definition network_ok : Page.FetchRequest -> Page.FetchOutcome :=
  fun _ =>
    inr {| Page.ok := true; Page.statusText := "OK";
           Page.json :=
             inr {| Page.result_error := None;
                    Page.result_image := Some "data:image/png;base64,AAAA";
                    Page.result_description := Some "done" |} |}.

(** A network whose answer is always the endpoint's 500. *)
Definition network_500 : Page.FetchRequest -> Page.FetchOutcome :=
  fun _ =>
    inr {| Page.ok := false; Page.statusText := "Internal Server Error";
           Page.json :=
             inr {| Page.result_error :=
                      Some "Failed to process virtual try-on request";
                    Page.result_image := None;
                    Page.result_description := None |} |}.

(** Both files picked, starting from the initial state. *)
Definition both_selected : Page.State :=
  fst (Page.onClothingImageChange (Some shirt)
         (fst (Page.onUserImageChange (Some photo) Page.initial))).

(** Then a submission that succeeds. *)
Definition after_success : Page.State :=
  fst (Page.handleSubmit network_ok both_selected).

(** Then the person-image picker is emptied: its change event carries no
    file. *)
Definition person_removed : Page.State :=
  fst (Page.onUserImageChange None after_success).

(** A state with two selected files of size zero. *)
Definition both_empty_files : Page.State :=
  fst (Page.onClothingImageChange (Some empty_shirt)
         (fst (Page.onUserImageChange (Some empty_photo) Page.initial))).

End Samples.

(** ** What the page renders ([src/app/page.tsx], the JSX conditions) *)

Module View.

Import Page.

(** [disabled={isLoading || !userImage || !clothingImage}] *)
Definition submit_disabled (st : State) : bool :=
  isLoading st
  || negb (match userImage st with Some _ => true | None => false end)
  || negb (match clothingImage st with Some _ => true | None => false end).

(** [{error && (...)}] *)
Definition shows_error (st : State) : bool := Js.truthy (error st).

(** [{error.includes('safety') && (...)}], inside the error panel. *)
Definition shows_safety_hint (st : State) : bool :=
  match error st with
  | Some e => Js.truthy (Some e) && Js.includes e "safety"
  | None => false
  end.

(** [{isLoading && (...)}] *)
Definition shows_loading (st : State) : bool := isLoading st.

(** [{resultImageUrl && !isLoading && (...)}] *)
Definition shows_result (st : State) : bool :=
  Js.truthy (resultImageUrl st) && negb (isLoading st).

(** [{userImagePreview && (...)}] and [{clothingImagePreview && (...)}] *)
Definition shows_user_preview (st : State) : bool :=
  Js.truthy (userImagePreview st).

Definition shows_clothing_preview (st : State) : bool :=
  Js.truthy (clothingImagePreview st).

End View.

(** ** The page over time: events and the handlers they run *)

Module Session.

Import Page.

Local Open Scope Z_scope.

(** The component's state with what is pending around it: the readers
    started and not yet finished, the requests issued and not yet settled,
    the values of the two file inputs, and every request sent so far. *)
Record Session : Type :=
  { state : State;
    readers : list Reader;
    in_flight : list FetchRequest;
    inputs : Inputs;
    sent : list FetchRequest }.

Definition start : Session :=
  {| state := initial; readers := []; in_flight := [];
     inputs := {| userFileInput := ""; clothingFileInput := "" |};
     sent := [] |}.

(** What can happen: a change event of either file input, a pending
    reader finishing with its result, the form being submitted, a pending
    request settling with its outcome, and a click on Reset. *)
Inductive Event : Type :=
| UserImageChange (file0 : option File)
| ClothingImageChange (file0 : option File)
| ReaderDone (n : nat) (result : option string)
| Submit
| Settle (n : nat) (outcome : FetchOutcome)
| Reset.

Fixpoint remove_nth {A} (n : nat) (l : list A) : list A :=
  match l, n with
  | [], _ => []
  | _ :: tl, O => tl
  | x :: tl, S n' => x :: remove_nth n' tl
  end.

Definition opt_list {A} (o : option A) : list A :=
  match o with Some a => [a] | None => [] end.

Definition step (e : Event) (s : Session) : Session :=
  match e with
  | UserImageChange file0 =>
      let (st', r) := onUserImageChange file0 (state s) in
      {| state := st'; readers := readers s ++ opt_list r;
         in_flight := in_flight s; inputs := inputs s; sent := sent s |}
  | ClothingImageChange file0 =>
      let (st', r) := onClothingImageChange file0 (state s) in
      {| state := st'; readers := readers s ++ opt_list r;
         in_flight := in_flight s; inputs := inputs s; sent := sent s |}
  | ReaderDone n result =>
      match nth_error (readers s) n with
      | Some r =>
          {| state := reader_done r result (state s);
             readers := remove_nth n (readers s);
             in_flight := in_flight s; inputs := inputs s; sent := sent s |}
      | None => s
      end
  | Submit =>
      let (st', request) := handleSubmit_begin (state s) in
      {| state := st'; readers := readers s;
         in_flight := in_flight s ++ opt_list request;
         inputs := inputs s; sent := sent s ++ opt_list request |}
  | Settle n outcome =>
      match nth_error (in_flight s) n with
      | Some _ =>
          {| state := handleSubmit_settle outcome (state s);
             readers := readers s;
             in_flight := remove_nth n (in_flight s);
             inputs := inputs s; sent := sent s |}
      | None => s
      end
  | Reset =>
      let (st', inputs') := handleReset (state s) (inputs s) in
      {| state := st'; readers := readers s; in_flight := in_flight s;
         inputs := inputs'; sent := sent s |}
  end.

(** The session after a sequence of events, oldest first. *)
Definition run (events : list Event) (s : Session) : Session :=
  fold_left (fun s e => step e s) events s.

(** A file within the size limit of [handleFileChange]. *)
Definition within_limit (f : File) : Prop := size f <= 10 * 1024 * 1024.

Definition files_within_limit (rq : FetchRequest) : Prop :=
  exists u c,
    body rq = [("userImage"%string, u); ("clothingImage"%string, c)]
    /\ within_limit u /\ within_limit c.

End Session.

(** ** What every session keeps *)

Module Invariant.

Import Page Session.

(** A reader whose callback only stores a preview: the callbacks
    [handleFileChange] hands out. *)
Definition preview_only (r : Reader) : Prop :=
  (forall result s, onloadend r result s = setUserImagePreview result s)
  \/ (forall result s,
        onloadend r result s = setClothingImagePreview result s).

Definition selected_within_limit (st : State) : Prop :=
  (forall f, userImage st = Some f -> within_limit f)
  /\ (forall f, clothingImage st = Some f -> within_limit f).

Definition holds (s : Session) : Prop :=
  Forall preview_only (readers s)
  /\ selected_within_limit (state s)
  /\ Forall files_within_limit (sent s)
  /\ (isLoading (state s) = true ->
      resultImageUrl (state s) = None /\ in_flight s <> []).

End Invariant.

(** ** Concrete sessions *)

Module Traces.

Import Session.

Definition tryon_request : Page.FetchRequest :=
  {| Page.url := "/api/tryon"; Page.method := "POST";
     Page.body := [("userImage", Samples.photo);
                   ("clothingImage", Samples.shirt)] |}.

(** Both files are picked and the form is submitted; while the request is
    pending a file over the limit is picked; then the request settles with
    a generated image. *)
Definition oversize_while_pending : list Event :=
  [ UserImageChange (Some Samples.photo);
    ClothingImageChange (Some Samples.shirt);
    Submit;
    UserImageChange (Some Samples.eleven_megabytes);
    Settle 0 (Samples.network_ok tryon_request) ].

End Traces.

(** ** Further concrete inputs *)

Module Cases.

(** A form whose person field was sent as text. *)
Definition text_form : Route.FormData :=
  [("userImage", Route.EntryString "hello");
   ("clothingImage", Route.EntryFile Samples.garment)].

(** A model whose call always fails. *)
Definition failing
  : Route.GenerateContentParameters ->
    Js.Thrown + Route.GenerateContentResponse :=
  fun _ => inl (Js.ErrorObj "quota exceeded").

(** The endpoint's 500 answer as the client parses it. *)
Definition result_500 : Page.ApiResult :=
  {| Page.result_error := Some "Failed to process virtual try-on request";
     Page.result_image := None;
     Page.result_description := None |}.

Definition response_500 : Page.Response :=
  {| Page.ok := false; Page.statusText := "Internal Server Error";
     Page.json := inr result_500 |}.



(** Both files are picked and the form is submitted. *)
Definition submitted : list Session.Event :=
  [ Session.UserImageChange (Some Samples.photo);
    Session.ClothingImageChange (Some Samples.shirt);
    Session.Submit ].

End Cases.

(** * Properties *)

(** ** Base64 and [arrayBufferToBase64] *)

Section Base64Facts.

Local Open Scope N_scope.

Import Base64.

Local Ltac euclid := zify; Z.to_euclidean_division_equations; lia.

Lemma decode_encode_sextet_nat (n : nat) :
  (n < 64)%nat ->
  decode_sextet (encode_sextet (N.of_nat n)) = Some (N.of_nat n).
Proof.
  intros H.
  do 64 (destruct n as [|n]; [reflexivity|]).
  lia.
Qed.

Lemma decode_encode_sextet (v : N) :
  v < 64 -> decode_sextet (encode_sextet v) = Some v.
Proof.
  intros H. rewrite <- (N2Nat.id v).
  apply decode_encode_sextet_nat. lia.
Qed.

Lemma decode_sextet_pad : decode_sextet pad = None.
Proof. reflexivity. Qed.

(** The unfolding of [decode] on a group of four characters that all stand
    for 6-bit groups. *)
Lemma decode_full_group c1 c2 c3 c4 rest s1 s2 s3 s4 :
  decode_sextet c1 = Some s1 -> decode_sextet c2 = Some s2 ->
  decode_sextet c3 = Some s3 -> decode_sextet c4 = Some s4 ->
  decode (String c1 (String c2 (String c3 (String c4 rest)))) =
  let n := s1 * 262144 + s2 * 4096 + s3 * 64 + s4 in
  match decode rest with
  | Some tl => Some (n / 65536 :: (n / 256) mod 256 :: n mod 256 :: tl)
  | None => None
  end.
Proof.
  intros H1 H2 H3 H4.
  change (decode (String c1 (String c2 (String c3 (String c4 rest)))))
    with (match decode_sextet c1, decode_sextet c2 with
          | Some s1, Some s2 =>
              match decode_sextet c3, decode_sextet c4 with
              | Some s3, Some s4 =>
                  let n := s1 * 262144 + s2 * 4096 + s3 * 64 + s4 in
                  match decode rest with
                  | Some tl =>
                      Some (n / 65536 :: (n / 256) mod 256 :: n mod 256 :: tl)
                  | None => None
                  end
              | Some s3, None =>
                  let n := s1 * 4096 + s2 * 64 + s3 in
                  if Ascii.eqb c4 pad && String.eqb rest "" && (n mod 4 =? 0)
                  then Some [n / 1024; (n / 4) mod 256]
                  else None
              | None, _ =>
                  let n := s1 * 64 + s2 in
                  if Ascii.eqb c3 pad && Ascii.eqb c4 pad
                     && String.eqb rest "" && (n mod 16 =? 0)
                  then Some [n / 16]
                  else None
              end
          | _, _ => None
          end).
  rewrite H1, H2, H3, H4. reflexivity.
Qed.

Lemma decode_encode_one (a : N) :
  a <= 255 -> decode (encode [a]) = Some [a].
Proof.
  intros Ha. cbn [encode].
  cbv beta iota zeta delta [decode].
  rewrite !decode_encode_sextet by euclid.
  rewrite decode_sextet_pad.
  replace (((a * 16 / 64) * 64 + (a * 16) mod 64) mod 16 =? 0) with true
    by (symmetry; apply N.eqb_eq; euclid).
  cbn [Ascii.eqb pad Bool.eqb String.eqb andb].
  do 2 f_equal. euclid.
Qed.

Lemma decode_encode_two (a b : N) :
  a <= 255 -> b <= 255 -> decode (encode [a; b]) = Some [a; b].
Proof.
  intros Ha Hb. cbn [encode].
  cbv beta iota zeta delta [decode].
  rewrite !decode_encode_sextet by euclid.
  rewrite decode_sextet_pad.
  set (n := (a * 256 + b) * 4).
  replace ((n / 4096 * 4096 + (n / 64) mod 64 * 64 + n mod 64) mod 4 =? 0)
    with true by (symmetry; apply N.eqb_eq; subst n; euclid).
  cbn [Ascii.eqb pad Bool.eqb String.eqb andb].
  f_equal. f_equal; [|f_equal]; subst n; euclid.
Qed.

Lemma decode_encode_three (a b c : N) (rest : list N) :
  a <= 255 -> b <= 255 -> c <= 255 ->
  decode (encode (a :: b :: c :: rest)) =
  match decode (encode rest) with
  | Some tl => Some (a :: b :: c :: tl)
  | None => None
  end.
Proof.
  intros Ha Hb Hc.
  change (encode (a :: b :: c :: rest))
    with (let n := a * 65536 + b * 256 + c in
          String (encode_sextet (n / 262144))
            (String (encode_sextet ((n / 4096) mod 64))
               (String (encode_sextet ((n / 64) mod 64))
                  (String (encode_sextet (n mod 64)) (encode rest))))).
  cbv zeta. set (n := a * 65536 + b * 256 + c).
  rewrite (decode_full_group _ _ _ _ _
             (n / 262144) ((n / 4096) mod 64) ((n / 64) mod 64) (n mod 64))
    by (apply decode_encode_sextet; subst n; euclid).
  cbv zeta.
  replace (n / 262144 * 262144 + (n / 4096) mod 64 * 4096
           + (n / 64) mod 64 * 64 + n mod 64) with n by euclid.
  replace (n / 65536) with a by (subst n; euclid).
  replace ((n / 256) mod 256) with b by (subst n; euclid).
  replace (n mod 256) with c by (subst n; euclid).
  reflexivity.
Qed.

(** Induction on a list three elements at a time. *)
Lemma list_ind3 {A} (P : list A -> Prop) :
  P [] -> (forall a, P [a]) -> (forall a b, P [a; b]) ->
  (forall a b c l, P l -> P (a :: b :: c :: l)) ->
  forall l, P l.
Proof.
  intros H0 H1 H2 H3 l.
  assert (H : P l /\ (forall a, P (a :: l)) /\ (forall a b, P (a :: b :: l))).
  { induction l as [|x l IH].
    - auto.
    - destruct IH as (IH0 & IH1 & IH2). auto. }
  apply H.
Qed.

Lemma decode_encode (octets : list N) :
  Forall (fun o => o <= 255) octets ->
  decode (encode octets) = Some octets.
Proof.
  induction octets as [|a|a b|a b c l IH] using list_ind3; intros H.
  - reflexivity.
  - inversion H; subst. now apply decode_encode_one.
  - inversion H as [|? ? Ha H']; subst. inversion H'; subst.
    now apply decode_encode_two.
  - inversion H as [|? ? Ha H']; subst.
    inversion H' as [|? ? Hb H'']; subst.
    inversion H'' as [|? ? Hc Hl]; subst.
    rewrite decode_encode_three by assumption.
    now rewrite IH.
Qed.

Lemma to_N_octets (buffer : list byte) :
  Forall (fun o => o <= 255) (map Byte.to_N buffer).
Proof.
  induction buffer as [|b l IH]; constructor.
  - apply Byte.to_N_bounded.
  - exact IH.
Qed.

Lemma to_bytes_to_N (buffer : list byte) :
  to_bytes (map Byte.to_N buffer) = Some buffer.
Proof.
  induction buffer as [|b l IH]; [reflexivity|].
  cbn [map to_bytes]. now rewrite Byte.of_to_N, IH.
Qed.

(** The loop of [arrayBufferToBase64] appends one code unit per byte. *)
Lemma binary_loop (octets : list N) (acc : code_units) :
  Forall (fun o => o <= 255) octets ->
  fold_left (fun binary b => (binary ++ fromCharCode b)%list) octets acc
  = (acc ++ octets)%list.
Proof.
  revert acc. induction octets as [|o l IH]; intros acc H.
  - now rewrite app_nil_r.
  - inversion H as [|? ? Ho Hl]; subst. cbn [fold_left].
    rewrite IH by assumption. unfold fromCharCode.
    rewrite N.mod_small by lia. now rewrite <- app_assoc.
Qed.

Lemma btoa_octets (octets : list N) :
  Forall (fun o => o <= 255) octets -> btoa octets = inr (encode octets).
Proof.
  intros H. unfold btoa.
  replace (forallb (fun u => u <=? 255) octets) with true; [reflexivity|].
  symmetry. apply forallb_forall. intros x Hx.
  rewrite Forall_forall in H. apply N.leb_le. now apply H.
Qed.

(** [arrayBufferToBase64] never throws: it returns the encoding of the
    buffer's bytes. *)
Lemma arrayBufferToBase64_encode (buffer : list byte) :
  Route.arrayBufferToBase64 buffer = inr (encode (map Byte.to_N buffer)).
Proof.
  unfold Route.arrayBufferToBase64.
  rewrite binary_loop by apply to_N_octets.
  apply btoa_octets, to_N_octets.
Qed.

(** *** The arithmetic encoding is the bit-stream encoding of the RFC *)

Lemma to_N_bits (a : byte) : Byte.to_N a = bits_value (bits_of_byte a).
Proof. destruct a; reflexivity. Qed.

Lemma b2n_le_1 (b : bool) : N.b2n b <= 1.
Proof. destruct b; cbn; lia. Qed.

(** The four 6-bit digits of a 24-bit group, from the pieces of its three
    octets. *)
Lemma sextets_of_pieces (ah al bh bl ch cl : N) :
  ah < 64 -> al < 4 -> bh < 16 -> bl < 16 -> ch < 4 -> cl < 64 ->
  let n := (4 * ah + al) * 65536 + (16 * bh + bl) * 256 + (64 * ch + cl) in
  n / 262144 = ah /\ (n / 4096) mod 64 = 16 * al + bh
  /\ (n / 64) mod 64 = 4 * bl + ch /\ n mod 64 = cl.
Proof. intros. subst n. repeat split; euclid. Qed.

Local Ltac abstract_bits :=
  repeat match goal with
         | |- context [N.b2n ?x] =>
             let H := fresh in
             pose proof (b2n_le_1 x) as H;
             generalize dependent (N.b2n x); intros
         end.

Lemma sextets_of_bits
    (a7 a6 a5 a4 a3 a2 a1 a0 b7 b6 b5 b4 b3 b2 b1 b0
     c7 c6 c5 c4 c3 c2 c1 c0 : bool) :
  let a := bits_value [a7; a6; a5; a4; a3; a2; a1; a0] in
  let b := bits_value [b7; b6; b5; b4; b3; b2; b1; b0] in
  let c := bits_value [c7; c6; c5; c4; c3; c2; c1; c0] in
  let n := a * 65536 + b * 256 + c in
  n / 262144 = bits_value [a7; a6; a5; a4; a3; a2]
  /\ (n / 4096) mod 64 = bits_value [a1; a0; b7; b6; b5; b4]
  /\ (n / 64) mod 64 = bits_value [b3; b2; b1; b0; c7; c6]
  /\ n mod 64 = bits_value [c5; c4; c3; c2; c1; c0].
Proof.
  intros.
  pose proof (sextets_of_pieces
                (bits_value [a7; a6; a5; a4; a3; a2]) (bits_value [a1; a0])
                (bits_value [b7; b6; b5; b4]) (bits_value [b3; b2; b1; b0])
                (bits_value [c7; c6]) (bits_value [c5; c4; c3; c2; c1; c0]))
    as G.
  subst a b c n. unfold bits_value in *. cbn [fold_left] in *.
  abstract_bits. cbv zeta in G.
  match type of G with
  | ?A -> ?B -> ?C -> ?D -> ?E -> ?F -> _ =>
      assert (HA : A) by lia; assert (HB : B) by lia;
      assert (HC : C) by lia; assert (HD : D) by lia;
      assert (HE : E) by lia; assert (HF : F) by lia;
      specialize (G HA HB HC HD HE HF)
  end.
  destruct G as (G1 & G2 & G3 & G4).
  match type of G1 with
  | ?m / _ = _ =>
      match goal with
      | |- ?n / _ = _ /\ _ => replace n with m by lia
      end
  end.
  rewrite G1, G2, G3, G4. repeat split; lia.
Qed.

Lemma encode_three_bits (a b c : byte) (rest : list N) :
  encode (Byte.to_N a :: Byte.to_N b :: Byte.to_N c :: rest)
  = (chars_of_bits (bits_of_byte a ++ bits_of_byte b ++ bits_of_byte c)
     ++ encode rest)%string.
Proof.
  rewrite !to_N_bits. unfold bits_of_byte.
  destruct (Byte.to_bits a) as (a0 & a1 & a2 & a3 & a4 & a5 & a6 & a7).
  destruct (Byte.to_bits b) as (b0 & b1 & b2 & b3 & b4 & b5 & b6 & b7).
  destruct (Byte.to_bits c) as (c0 & c1 & c2 & c3 & c4 & c5 & c6 & c7).
  destruct (sextets_of_bits a7 a6 a5 a4 a3 a2 a1 a0 b7 b6 b5 b4 b3 b2 b1 b0
              c7 c6 c5 c4 c3 c2 c1 c0) as (G1 & G2 & G3 & G4).
  cbv zeta in G1, G2, G3, G4.
  unfold chars_of_bits.
  cbn [app groups6 map string_of_list_ascii String.append encode].
  cbv zeta. now rewrite G1, G2, G3, G4.
Qed.

Lemma encode_two_bits (a b : byte) :
  encode [Byte.to_N a; Byte.to_N b]
  = (chars_of_bits (bits_of_byte a ++ bits_of_byte b ++ [false; false])
     ++ "=")%string.
Proof.
  rewrite !to_N_bits. unfold bits_of_byte.
  destruct (Byte.to_bits a) as (a0 & a1 & a2 & a3 & a4 & a5 & a6 & a7).
  destruct (Byte.to_bits b) as (b0 & b1 & b2 & b3 & b4 & b5 & b6 & b7).
  unfold chars_of_bits.
  cbn [app groups6 map string_of_list_ascii String.append encode].
  cbv zeta.
  set (va := bits_value [a7; a6; a5; a4; a3; a2; a1; a0]).
  set (vb := bits_value [b7; b6; b5; b4; b3; b2; b1; b0]).
  assert (G : (va * 256 + vb) * 4 / 4096
              = bits_value [a7; a6; a5; a4; a3; a2]
              /\ ((va * 256 + vb) * 4 / 64) mod 64
                 = bits_value [a1; a0; b7; b6; b5; b4]
              /\ ((va * 256 + vb) * 4) mod 64
                 = bits_value [b3; b2; b1; b0; false; false]).
  { destruct (sextets_of_bits a7 a6 a5 a4 a3 a2 a1 a0
                b7 b6 b5 b4 b3 b2 b1 b0
                false false false false false false false false)
      as (G1 & G2 & G3 & _).
    cbv zeta in G1, G2, G3. fold va vb in G1, G2, G3.
    change (bits_value [false; false; false; false;
                        false; false; false; false]) with 0 in *.
    assert (Hb : bits_value [b3; b2; b1; b0; false; false]
                 = 4 * bits_value [b3; b2; b1; b0])
      by (unfold bits_value; cbn [fold_left N.b2n]; lia).
    assert (Hc : bits_value [b3; b2; b1; b0; false; false]
                 = (va * 65536 + vb * 256 + 0) / 64 mod 64)
      by (rewrite G3; reflexivity).
    rewrite <- G1, <- G2, Hc. repeat split; euclid. }
  destruct G as (G1 & G2 & G3). now rewrite G1, G2, G3.
Qed.

Lemma encode_one_bits (a : byte) :
  encode [Byte.to_N a]
  = (chars_of_bits (bits_of_byte a ++ [false; false; false; false])
     ++ "==")%string.
Proof.
  rewrite !to_N_bits. unfold bits_of_byte.
  destruct (Byte.to_bits a) as (a0 & a1 & a2 & a3 & a4 & a5 & a6 & a7).
  unfold chars_of_bits.
  cbn [app groups6 map string_of_list_ascii String.append encode].
  cbv zeta.
  set (va := bits_value [a7; a6; a5; a4; a3; a2; a1; a0]).
  assert (G : va * 16 / 64 = bits_value [a7; a6; a5; a4; a3; a2]
              /\ (va * 16) mod 64
                 = bits_value [a1; a0; false; false; false; false]).
  { destruct (sextets_of_bits a7 a6 a5 a4 a3 a2 a1 a0
                false false false false false false false false
                false false false false false false false false)
      as (G1 & G2 & _).
    cbv zeta in G1, G2. fold va in G1, G2.
    change (bits_value [false; false; false; false;
                        false; false; false; false]) with 0 in *.
    rewrite <- G1, <- G2. split; euclid. }
  destruct G as (G1 & G2). now rewrite G1, G2.
Qed.

(** The encoding computed by [btoa] on the octets of a buffer is the
    encoding the RFC describes. *)
Lemma encode_rfc4648 (buffer : list byte) :
  encode (map Byte.to_N buffer) = rfc4648_encode buffer.
Proof.
  induction buffer as [|a|a b|a b c l IH] using list_ind3.
  - reflexivity.
  - apply encode_one_bits.
  - apply encode_two_bits.
  - cbn [map]. rewrite encode_three_bits, IH. reflexivity.
Qed.

End Base64Facts.

(** ** The proxy endpoint *)

Section RouteFacts.

Import Route.

Variable generateContent :
  GenerateContentParameters -> Js.Thrown + GenerateContentResponse.

Lemma or_default_some (t d : string) :
  Js.or_default (Some t) d = if String.eqb t "" then d else t.
Proof.
  unfold Js.or_default, Js.truthy. now destruct (String.eqb t "").
Qed.

(** The request sent for a user file [u] and a clothing file [c]. *)
Lemma POST_calls_model (fd : FormData) (u c : File) (w : Calls) :
  FormData_get "userImage" fd = Some (EntryFile u) ->
  FormData_get "clothingImage" fd = Some (EntryFile c) ->
  let p := request_for u c in
  POST generateContent {| formData := inr fd |} w =
  (inr
     match generateContent p with
     | inl (Js.ErrorObj m) =>
         json_with
           (ErrorBody "Failed to process virtual try-on request"
              (Some ("Failed during API call: " ++ m)))
           500
     | inl (Js.NonError _) =>
         json_with
           (ErrorBody "Failed to process virtual try-on request"
              (Some "An unknown error occurred during the API call"))
           500
     | inr response =>
         match process_response response with
         | inr x => json (result_body x)
         | inl e =>
             json_with
               (ErrorBody "Failed to process virtual try-on request"
                  (Some (Js.message_or_string e)))
               500
         end
     end,
   (w ++ [p])%list).
Proof.
  intros Hu Hc p.
  unfold POST. cbn [formData].
  unfold try_catch at 1.
  rewrite Hu, Hc. cbn [entry_truthy negb orb arrayBuffer entry_type].
  unfold bind at 1. unfold ret at 1.
  rewrite arrayBufferToBase64_encode. cbn [lift].
  unfold bind at 1. unfold ret at 1.
  unfold bind at 1. unfold ret at 1.
  rewrite arrayBufferToBase64_encode. cbn [lift].
  unfold bind at 1. unfold ret at 1.
  unfold bind at 1. unfold try_catch, call_generateContent.
  fold (request_for u c). fold p.
  destruct (generateContent p) as [[m|r]|response]; try reflexivity.
  unfold bind, lift.
  destruct (process_response response) as [e|x]; reflexivity.
Qed.

Lemma last_inline_snoc (ps : list Part) (p : Part) :
  last_inline (ps ++ [p]) =
  match inlineData p with Some b => Some b | None => last_inline ps end.
Proof.
  unfold last_inline, first_inline. rewrite rev_unit. cbn [find].
  unfold has_inline.
  destruct (inlineData p) as [b|] eqn:E; [now rewrite E | reflexivity].
Qed.

Lemma last_text_snoc (ps : list Part) (p : Part) :
  last_text (ps ++ [p]) = if is_text p then text p else last_text ps.
Proof.
  unfold last_text, first_text. rewrite rev_unit. cbn [find].
  now destruct (is_text p).
Qed.

(** What the response loop leaves in its three variables, started from any
    values [acc] of them. *)
Lemma extract_from (ps : list Part) (acc : Extracted) :
  let x := fold_left extract_step ps acc in
  imageData x
  = match last_inline ps with Some b => data b | None => imageData acc end
  /\ imageMimeType x
     = match last_inline ps with
       | Some b => Js.or_default (mimeType b) "image/png"
       | None => imageMimeType acc
       end
  /\ textResponse x
     = match last_text ps with Some t => Some t | None => textResponse acc end.
Proof.
  induction ps as [|p ps IH] using rev_ind; cbv zeta.
  - repeat split.
  - destruct IH as (IHd & IHm & IHt).
    rewrite fold_left_app, last_inline_snoc, last_text_snoc.
    cbn [fold_left]. unfold extract_step at 1 3 5, is_text, has_inline.
    destruct (inlineData p) as [b|]; cbn [negb andb].
    + cbn [imageData imageMimeType textResponse]. auto.
    + destruct (Js.truthy (text p)) eqn:T;
        cbn [imageData imageMimeType textResponse]; auto.
      repeat split; auto.
      unfold Js.truthy in T. now destruct (text p).
Qed.

(** C1 (amended). The extraction keeps the LAST inline-data segment of the
    parts as the generated image (its data, and its MIME type defaulting to
    [image/png]) and the text of the LAST text segment (a segment with no
    inline data and a non-empty text) as the description: a later segment
    replaces what an earlier one set. *)
Theorem extract_takes_last_segments (ps : list Part) :
  imageData (extract ps)
  = match last_inline ps with Some b => data b | None => None end
  /\ imageMimeType (extract ps)
     = match last_inline ps with
       | Some b => Js.or_default (mimeType b) "image/png"
       | None => "image/png"
       end
  /\ textResponse (extract ps) = last_text ps.
Proof.
  unfold extract.
  destruct (extract_from ps extracted_init) as (Hd & Hm & Ht).
  rewrite Hd, Hm, Ht. cbn [extracted_init imageData imageMimeType textResponse].
  repeat split.
  now destruct (last_text ps).
Qed.

End RouteFacts.

(** C1 (as stated) fails: the first inline-data segment and the first text
    segment of [Samples.two_images] are replaced by the later ones. *)
Lemma extract_replaces_first_segments :
  Route.first_inline Samples.two_images = Some Samples.image_A
  /\ Route.first_text Samples.two_images = Some "front view"
  /\ Route.imageData (Route.extract Samples.two_images) = Some "BBBB"
  /\ Route.imageData (Route.extract Samples.two_images)
     <> Route.data Samples.image_A
  /\ Route.imageMimeType (Route.extract Samples.two_images) = "image/jpeg"
  /\ Route.textResponse (Route.extract Samples.two_images) = Some "back view"
  /\ Route.textResponse (Route.extract Samples.two_images)
     <> Route.first_text Samples.two_images.
Proof.
  repeat split; try reflexivity; cbv; discriminate.
Qed.

Section EndpointClaims.

Import Route.

Variable generateContent :
  GenerateContentParameters -> Js.Thrown + GenerateContentResponse.

Lemma prefix_refl (s : string) : String.prefix s s = true.
Proof.
  induction s as [|a s IH]; [reflexivity|].
  cbn [String.prefix]. destruct (ascii_dec a a); [exact IH | congruence].
Qed.

Lemma includes_self (s : string) : Js.includes s s = true.
Proof.
  destruct s as [|a s]; [reflexivity|].
  cbn [Js.includes]. now rewrite prefix_refl.
Qed.

Lemma includes_suffix (p s : string) : Js.includes (p ++ s) s = true.
Proof.
  induction p as [|a p IH]; cbn [String.append].
  - apply includes_self.
  - cbn [Js.includes]. rewrite IH. apply orb_true_r.
Qed.

Lemma last_text_truthy (ps : list Part) (t : string) :
  last_text ps = Some t -> Js.truthy (Some t) = true.
Proof.
  unfold last_text, first_text.
  destruct (find is_text (rev ps)) as [p|] eqn:E; [|discriminate].
  intros Ht. apply find_some in E. destruct E as [_ E].
  unfold is_text in E. apply andb_true_iff in E.
  rewrite <- Ht. apply E.
Qed.

(** C3 (amended). When both files are present and the model answers with
    zero candidates, the endpoint returns HTTP 500 whose [error] field is
    the fixed message "Failed to process virtual try-on request"; the block
    reason, when there is a non-empty one, is carried by the [details]
    field, which is "Content generation failed due to safety settings: "
    followed by the reason (and so contains it); with no block reason
    [details] is the generic unexpected-response message. *)
Theorem POST_no_candidates
    (fd : FormData) (u c : File) (w : Calls)
    (response : GenerateContentResponse) :
  FormData_get "userImage" fd = Some (EntryFile u) ->
  FormData_get "clothingImage" fd = Some (EntryFile c) ->
  generateContent (request_for u c) = inr response ->
  candidates response = None \/ candidates response = Some [] ->
  POST generateContent {| formData := inr fd |} w =
  (inr {| status := 500;
          body :=
            ErrorBody "Failed to process virtual try-on request"
              (Some
                 match safetyFeedback response with
                 | Some reason =>
                     if String.eqb reason ""
                     then "Received an unexpected or empty response from the API."
                     else "Content generation failed due to safety settings: "
                            ++ reason
                 | None =>
                     "Received an unexpected or empty response from the API."
                 end) |},
   (w ++ [request_for u c])%list)
  /\ forall reason,
       Js.includes
         ("Content generation failed due to safety settings: " ++ reason)
         reason = true.
Proof.
  intros Hu Hc Hg Hz. split; [|intros reason; apply includes_suffix].
  rewrite (POST_calls_model generateContent fd u c w Hu Hc). cbv zeta.
  rewrite Hg. unfold process_response.
  destruct Hz as [Hz|Hz]; rewrite Hz;
    (destruct (safetyFeedback response) as [reason|]; [|reflexivity];
     unfold Js.truthy; destruct (String.eqb reason ""); reflexivity).
Qed.

(** C4 (amended). When both files are present and the model answers with at
    least one candidate, the endpoint returns 200. [image] is the string
    [data:] ++ m ++ [;base64,] ++ d for the MIME type m (defaulting to
    [image/png] when unspecified or empty) and the data d of the LAST
    inline-data segment of the first candidate, provided d is non-empty;
    it is null when there is no inline-data segment or that data is missing
    or empty. [description] is the text of the LAST text segment (no inline
    data, non-empty text), and the placeholder when there is none. *)
Theorem POST_returns_last_segments
    (fd : FormData) (u c : File) (w : Calls)
    (response : GenerateContentResponse)
    (cand : Candidate) (cands : list Candidate) :
  FormData_get "userImage" fd = Some (EntryFile u) ->
  FormData_get "clothingImage" fd = Some (EntryFile c) ->
  generateContent (request_for u c) = inr response ->
  candidates response = Some (cand :: cands) ->
  let ps :=
    match first_parts (cand :: cands) with Some ps => ps | None => [] end in
  POST generateContent {| formData := inr fd |} w =
  (inr {| status := 200;
          body :=
            ResultBody
              match last_inline ps with
              | Some {| mimeType := m; data := Some d |} =>
                  if String.eqb d "" then None
                  else Some ("data:" ++ Js.or_default m "image/png"
                               ++ ";base64," ++ d)
              | _ => None
              end
              match last_text ps with
              | Some t => t
              | None => "AI description not available."
              end |},
   (w ++ [request_for u c])%list).
Proof.
  intros Hu Hc Hg Hcs ps.
  rewrite (POST_calls_model generateContent fd u c w Hu Hc). cbv zeta.
  rewrite Hg. unfold process_response. rewrite Hcs.
  assert (E : match first_parts (cand :: cands) with
              | Some ps0 => inr (extract ps0)
              | None => inr extracted_init
              end = (inr (extract ps) : Js.Thrown + Extracted)).
  { subst ps. now destruct (first_parts (cand :: cands)). }
  rewrite E. clear E. unfold json, json_with, result_body.
  unfold extract.
  destruct (extract_from ps extracted_init) as (Hd & Hm & Ht).
  rewrite Hd, Hm, Ht.
  cbn [extracted_init imageData imageMimeType textResponse].
  do 3 f_equal. f_equal.
  - destruct (last_inline ps) as [[m [d|]]|]; cbn [data mimeType];
      try reflexivity.
    unfold Js.truthy. now destruct (String.eqb d "").
  - destruct (last_text ps) as [t|] eqn:E; [|reflexivity].
    unfold Js.or_default. now rewrite (last_text_truthy ps t E).
Qed.

(** C6. A request whose multipart body fails to parse is answered with
    HTTP 400 and an error message; a parsed form in which the [userImage]
    field or the [clothingImage] field (or both) is absent is answered with
    400; in both cases no call is made to the external model. *)
Theorem POST_bad_request_400 (w : Calls) :
  (forall formError,
     POST generateContent {| formData := inl formError |} w =
     (inr {| status := 400;
             body :=
               ErrorBody "Invalid request body: Failed to parse FormData."
                 (Some (Js.message_or_string formError)) |},
      w))
  /\ (forall fd,
        FormData_get "userImage" fd = None
        \/ FormData_get "clothingImage" fd = None ->
        POST generateContent {| formData := inr fd |} w =
        (inr {| status := 400;
                body :=
                  ErrorBody
                    "Both userImage and clothingImage files are required"
                    None |},
         w)).
Proof.
  split.
  - intros formError. reflexivity.
  - intros fd H. unfold POST, try_catch. cbn [formData].
    destruct H as [H|H]; rewrite H; cbn [entry_truthy negb orb].
    + reflexivity.
    + now rewrite orb_true_r.
Qed.

(** C9. With both files present, exactly one request goes to the model; in
    its [inlineData] parts the person image's [mimeType] is [image/jpeg]
    when the uploaded file declares an empty type, and the garment image's
    is [image/png] when the garment file declares an empty type; a
    non-empty declared type is forwarded unchanged. *)
Theorem POST_mime_defaults (fd : FormData) (u c : File) (w : Calls) :
  FormData_get "userImage" fd = Some (EntryFile u) ->
  FormData_get "clothingImage" fd = Some (EntryFile c) ->
  snd (POST generateContent {| formData := inr fd |} w)
  = (w ++
     [ {| model := "gemini-2.0-flash-exp-image-generation";
          contents :=
            [ {| role := Some "user";
                 parts := Some
                   [ {| inlineData := None;
                        text := Some "PERSON IMAGE (preserve this person's identity exactly):" |};
                     {| inlineData :=
                          Some {| mimeType :=
                                    Some (if String.eqb (type u) ""
                                          then "image/jpeg" else type u);
                                  data :=
                                    Some (Base64.encode
                                            (map Byte.to_N (bytes u))) |};
                        text := None |};
                     {| inlineData := None;
                        text := Some "CLOTHING IMAGE (extract only the clothing item):" |};
                     {| inlineData :=
                          Some {| mimeType :=
                                    Some (if String.eqb (type c) ""
                                          then "image/png" else type c);
                                  data :=
                                    Some (Base64.encode
                                            (map Byte.to_N (bytes c))) |};
                        text := None |};
                     {| inlineData := None;
                        text := Some improvedPrompt |} ] |} ];
          config :=
            {| temperature := 1 # 10; topP := 8 # 10; topK := 20;
               responseModalities := ["Text"; "Image"] |} |} ])%list.
Proof.
  intros Hu Hc.
  rewrite (POST_calls_model generateContent fd u c w Hu Hc). cbv zeta.
  cbn [snd]. unfold request_for, generateContent_params, build_contents,
    inline_part, text_part, MODEL_ID.
  now rewrite !or_default_some.
Qed.

End EndpointClaims.

(** *** The endpoint on concrete requests *)

(** C3 (as stated) fails: for a response with zero candidates and block
    reason SAFETY the error message of the 500 answer is the fixed one and
    does not contain the reason. *)
Lemma POST_blocked_error_message_is_fixed :
  Route.candidates Samples.blocked = None
  /\ Route.safetyFeedback Samples.blocked = Some "SAFETY"
  /\ fst (Route.POST (Samples.answering Samples.blocked)
            {| Route.formData := inr Samples.form |} [])
     = inr {| Route.status := 500;
              Route.body :=
                Route.ErrorBody "Failed to process virtual try-on request"
                  (Some "Content generation failed due to safety settings: SAFETY") |}
  /\ Js.includes "Failed to process virtual try-on request" "SAFETY" = false.
Proof. repeat split. Qed.

Lemma POST_no_candidates_witness :
  Route.FormData_get "userImage" Samples.form
  = Some (Route.EntryFile Samples.person)
  /\ Route.FormData_get "clothingImage" Samples.form
     = Some (Route.EntryFile Samples.garment)
  /\ Samples.answering Samples.blocked
       (Route.request_for Samples.person Samples.garment)
     = inr Samples.blocked
  /\ (Route.candidates Samples.blocked = None
      \/ Route.candidates Samples.blocked = Some [])
  /\ Route.POST (Samples.answering Samples.blocked)
       {| Route.formData := inr Samples.form |} []
     = (inr {| Route.status := 500;
               Route.body :=
                 Route.ErrorBody "Failed to process virtual try-on request"
                   (Some "Content generation failed due to safety settings: SAFETY") |},
        [Route.request_for Samples.person Samples.garment]).
Proof.
  split; [reflexivity|]. split; [reflexivity|]. split; [reflexivity|].
  split; [left; reflexivity|].
  exact (proj1 (POST_no_candidates (Samples.answering Samples.blocked)
                  Samples.form Samples.person Samples.garment []
                  Samples.blocked eq_refl eq_refl eq_refl
                  (or_introl eq_refl))).
Defined.

(** C4 (as stated) fails, twice. The first candidate of
    [Samples.two_images] contains the inline-data segment
    ([image/png], AAAA) and the text segment "front view", and the answer
    carries the later segments instead. The first candidate of
    [Samples.empty_image] contains one inline-data segment, with MIME type
    [image/png] and empty data, and the answer's [image] is null, not the
    string [data:image/png;base64,]. *)
Lemma POST_image_not_from_every_inline_segment :
  (In (Route.inline_part "image/png" "AAAA") Samples.two_images
   /\ In (Route.text_part "front view") Samples.two_images
   /\ fst (Route.POST
             (Samples.answering (Samples.one_candidate Samples.two_images))
             {| Route.formData := inr Samples.form |} [])
      = inr {| Route.status := 200;
               Route.body :=
                 Route.ResultBody (Some "data:image/jpeg;base64,BBBB")
                   "back view" |}
   /\ "data:image/jpeg;base64,BBBB" <> "data:image/png;base64,AAAA"
   /\ "back view" <> "front view")
  /\ (In (Route.inline_part "image/png" "") Samples.empty_image
      /\ In (Route.text_part "no image today") Samples.empty_image
      /\ fst (Route.POST
                (Samples.answering (Samples.one_candidate Samples.empty_image))
                {| Route.formData := inr Samples.form |} [])
         = inr {| Route.status := 200;
                  Route.body := Route.ResultBody None "no image today" |}
      /\ None <> Some ("data:" ++ "image/png" ++ ";base64," ++ "")).
Proof.
  split; repeat split; try discriminate; cbn; auto.
Qed.

Lemma POST_returns_last_segments_witness :
  Route.FormData_get "userImage" Samples.form
  = Some (Route.EntryFile Samples.person)
  /\ Route.FormData_get "clothingImage" Samples.form
     = Some (Route.EntryFile Samples.garment)
  /\ Route.POST
       (Samples.answering (Samples.one_candidate Samples.one_image_one_text))
       {| Route.formData := inr Samples.form |} []
     = (inr {| Route.status := 200;
               Route.body :=
                 Route.ResultBody (Some "data:image/png;base64,AAAA")
                   "Here is the result." |},
        [Route.request_for Samples.person Samples.garment]).
Proof.
  split; [reflexivity|]. split; [reflexivity|].
  exact (POST_returns_last_segments
           (Samples.answering (Samples.one_candidate Samples.one_image_one_text))
           Samples.form Samples.person Samples.garment []
           (Samples.one_candidate Samples.one_image_one_text)
           _ [] eq_refl eq_refl eq_refl eq_refl).
Defined.

Lemma POST_bad_request_400_witness :
  Route.FormData_get "clothingImage" Samples.form_without_garment = None
  /\ Route.POST (Samples.answering Samples.empty_response)
       {| Route.formData := inr Samples.form_without_garment |} []
     = (inr {| Route.status := 400;
               Route.body :=
                 Route.ErrorBody
                   "Both userImage and clothingImage files are required"
                   None |},
        [])
  /\ Route.POST (Samples.answering Samples.empty_response)
       {| Route.formData := inl (Js.ErrorObj "Unexpected end of form") |} []
     = (inr {| Route.status := 400;
               Route.body :=
                 Route.ErrorBody
                   "Invalid request body: Failed to parse FormData."
                   (Some "Unexpected end of form") |},
        []).
Proof.
  split; [reflexivity|]. split.
  - apply (proj2 (POST_bad_request_400
                    (Samples.answering Samples.empty_response) [])).
    right. reflexivity.
  - apply (proj1 (POST_bad_request_400
                    (Samples.answering Samples.empty_response) [])).
Defined.

Lemma POST_mime_defaults_witness :
  Route.FormData_get "userImage" Samples.form
  = Some (Route.EntryFile Samples.person)
  /\ Route.FormData_get "clothingImage" Samples.form
     = Some (Route.EntryFile Samples.garment)
  /\ Route.type Samples.person = "image/webp"
  /\ Route.type Samples.garment = ""
  /\ snd (Route.POST (Samples.answering Samples.empty_response)
            {| Route.formData := inr Samples.form |} [])
     = [ {| Route.model := "gemini-2.0-flash-exp-image-generation";
            Route.contents :=
              [ {| Route.role := Some "user";
                   Route.parts := Some
                     [ {| Route.inlineData := None;
                          Route.text := Some "PERSON IMAGE (preserve this person's identity exactly):" |};
                       {| Route.inlineData :=
                            Some {| Route.mimeType := Some "image/webp";
                                    Route.data := Some "Zm9v" |};
                          Route.text := None |};
                       {| Route.inlineData := None;
                          Route.text := Some "CLOTHING IMAGE (extract only the clothing item):" |};
                       {| Route.inlineData :=
                            Some {| Route.mimeType := Some "image/png";
                                    Route.data := Some "Zm9vYmFy" |};
                          Route.text := None |};
                       {| Route.inlineData := None;
                          Route.text := Some Route.improvedPrompt |} ] |} ];
            Route.config :=
              {| Route.temperature := 1 # 10; Route.topP := 8 # 10;
                 Route.topK := 20;
                 Route.responseModalities := ["Text"; "Image"] |} |} ].
Proof.
  split; [reflexivity|]. split; [reflexivity|].
  split; [reflexivity|]. split; [reflexivity|].
  exact (POST_mime_defaults (Samples.answering Samples.empty_response)
           Samples.form Samples.person Samples.garment [] eq_refl eq_refl).
Defined.

(** *** [arrayBufferToBase64] *)

(** The test vectors of RFC 4648, section 10. *)
Example arrayBufferToBase64_rfc4648_vectors :
  map (fun s => Route.arrayBufferToBase64 (list_byte_of_string s))
    ["f"; "fo"; "foo"; "foob"; "fooba"; "foobar"]
  = map inr ["Zg=="; "Zm8="; "Zm9v"; "Zm9vYg=="; "Zm9vYmE="; "Zm9vYmFy"]
  /\ Route.arrayBufferToBase64 [] = inr "".
Proof. split; reflexivity. Qed.

(** C8. For every byte buffer, [arrayBufferToBase64] returns (it does not
    throw) the RFC 4648 base64 encoding of the buffer's bytes, and decoding
    that output yields exactly the buffer. *)
Theorem arrayBufferToBase64_roundtrip (buffer : list byte) :
  Route.arrayBufferToBase64 buffer = inr (Base64.rfc4648_encode buffer)
  /\ Base64.decode_bytes (Base64.rfc4648_encode buffer) = Some buffer.
Proof.
  rewrite <- encode_rfc4648. split.
  - apply arrayBufferToBase64_encode.
  - unfold Base64.decode_bytes.
    rewrite decode_encode by apply to_N_octets.
    apply to_bytes_to_N.
Qed.

(** ** The client form controller *)

Section PageFacts.

Import Page.

Local Open Scope Z_scope.

(** C2 (amended). In the file-selection handler of either slot: for every
    file whose size is at most 10MB (10*1024*1024 bytes, the bound
    included) the file is stored, the error is cleared, and a reader is
    started on the file whose completion stores its result as the slot's
    preview; for every file whose size is over 10MB the file is rejected
    with the size error, no reader is started, and the stored files and
    previews are left unchanged. *)
Theorem handleFileChange_size_limit (f : File) (st : State) :
  (size f <= 10 * 1024 * 1024 ->
   (exists r,
      onUserImageChange (Some f) st
      = (setError None (setUserImage (Some f) st), Some r)
      /\ reading r = f
      /\ forall result s,
           reader_done r result s = setUserImagePreview result s)
   /\ (exists r,
         onClothingImageChange (Some f) st
         = (setError None (setClothingImage (Some f) st), Some r)
         /\ reading r = f
         /\ forall result s,
              reader_done r result s = setClothingImagePreview result s))
  /\ (10 * 1024 * 1024 < size f ->
      forall st', st' = fst (onUserImageChange (Some f) st)
                  \/ st' = fst (onClothingImageChange (Some f) st) ->
      st' = setError (Some size_error) st
      /\ error st' = Some size_error
      /\ userImage st' = userImage st
      /\ clothingImage st' = clothingImage st
      /\ userImagePreview st' = userImagePreview st
      /\ clothingImagePreview st' = clothingImagePreview st
      /\ snd (onUserImageChange (Some f) st) = None
      /\ snd (onClothingImageChange (Some f) st) = None).
Proof.
  unfold onUserImageChange, onClothingImageChange, handleFileChange.
  split.
  - intros H.
    replace (size f >? 10 * 1024 * 1024) with false
      by (symmetry; rewrite Z.gtb_ltb; apply Z.ltb_ge; exact H).
    split; eexists; (split; [reflexivity|]); split; reflexivity.
  - intros H st' Hst'.
    replace (size f >? 10 * 1024 * 1024) with true in *
      by (symmetry; rewrite Z.gtb_ltb; apply Z.ltb_lt; exact H).
    cbn [fst snd] in *.
    assert (E : st' = setError (Some size_error) st) by now destruct Hst'.
    subst st'. repeat split.
Qed.

(** C5 (amended). The submission handler issues the POST exactly when both
    the person file and the garment file are selected, with the two files
    as the fields [userImage] and [clothingImage] of the body; the sizes of
    the files are not examined. *)
Theorem handleSubmit_issues_iff_both_selected (st : State) :
  (forall request,
     snd (handleSubmit_begin st) = Some request ->
     exists u c,
       userImage st = Some u /\ clothingImage st = Some c
       /\ request = {| url := "/api/tryon"; method := "POST";
                       body := [("userImage"%string, u);
                                ("clothingImage"%string, c)] |})
  /\ (forall u c,
        userImage st = Some u -> clothingImage st = Some c ->
        snd (handleSubmit_begin st)
        = Some {| url := "/api/tryon"; method := "POST";
                  body := [("userImage"%string, u);
                           ("clothingImage"%string, c)] |}).
Proof.
  unfold handleSubmit_begin. split.
  - intros request.
    destruct (userImage st) as [u|], (clothingImage st) as [c|];
      cbn [snd]; intros H; try discriminate.
    exists u, c. repeat split. congruence.
  - intros u c Hu Hc. now rewrite Hu, Hc.
Qed.

(** C7. In every state in which the person-image slot or the
    clothing-image slot (or both) is empty, the submit handler issues no
    network request and sets the error to the fixed validation message;
    the loading flag, the result, the previews and the selections are left
    unchanged. *)
Theorem handleSubmit_empty_slot
    (network : FetchRequest -> FetchOutcome) (st : State) :
  userImage st = None \/ clothingImage st = None ->
  let st' := fst (handleSubmit network st) in
  snd (handleSubmit network st) = []
  /\ st' = setError (Some validation_error) st
  /\ error st' = Some validation_error
  /\ isLoading st' = isLoading st
  /\ resultImageUrl st' = resultImageUrl st
  /\ userImagePreview st' = userImagePreview st
  /\ clothingImagePreview st' = clothingImagePreview st
  /\ userImage st' = userImage st
  /\ clothingImage st' = clothingImage st.
Proof.
  intros H st'.
  assert (E : handleSubmit network st
              = (setError (Some validation_error) st, [])).
  { unfold handleSubmit, handleSubmit_begin.
    destruct H as [H|H]; rewrite H; [reflexivity|].
    now destruct (userImage st). }
  subst st'. rewrite E. repeat split.
Qed.

(** C10 (amended). A run of the submission handler that passes the
    both-files guard issues one request after setting the loading flag and
    clearing the error and the result. When the request settles, in
    whatever state the page then is, the loading flag becomes false; any
    failure (rejected fetch, unparseable body, non-[ok] status, missing
    image) leaves the error set with the result null; a success (an [ok]
    status and a non-empty [image]) leaves the result set to that image
    and does not touch the error. So with no other event between the
    request and its settlement the result and the error are never both
    non-null after the run: a success leaves the error null. A run that
    fails the guard issues no request and only sets the error. *)
Theorem handleSubmit_settles
    (network : FetchRequest -> FetchOutcome) (st : State) :
  (forall u c,
     userImage st = Some u -> clothingImage st = Some c ->
     let request :=
       {| url := "/api/tryon"; method := "POST";
          body := [("userImage"%string, u); ("clothingImage"%string, c)] |} in
     let st1 := fst (handleSubmit_begin st) in
     let st' := fst (handleSubmit network st) in
     (snd (handleSubmit_begin st) = Some request
      /\ isLoading st1 = true
      /\ error st1 = None
      /\ resultImageUrl st1 = None)
     /\ snd (handleSubmit network st) = [request]
     /\ isLoading st' = false
     /\ match generated_image (network request) with
        | Some image => resultImageUrl st' = Some image /\ error st' = None
        | None =>
            resultImageUrl st' = None /\ exists msg, error st' = Some msg
        end)
  /\ (forall outcome pending,
        let st' := handleSubmit_settle outcome pending in
        isLoading st' = false
        /\ match generated_image outcome with
           | Some image =>
               resultImageUrl st' = Some image /\ error st' = error pending
           | None =>
               resultImageUrl st' = None /\ exists msg, error st' = Some msg
           end)
  /\ (userImage st = None \/ clothingImage st = None ->
      handleSubmit_begin st = (setError (Some validation_error) st, None)
      /\ handleSubmit network st = (setError (Some validation_error) st, [])).
Proof.
  assert (S : forall outcome pending,
             let st' := handleSubmit_settle outcome pending in
             isLoading st' = false
             /\ match generated_image outcome with
                | Some image =>
                    resultImageUrl st' = Some image
                    /\ error st' = error pending
                | None =>
                    resultImageUrl st' = None
                    /\ exists msg, error st' = Some msg
                end).
  { intros outcome pending st'. subst st'.
    split; [reflexivity|].
    unfold handleSubmit_settle, try_block, generated_image.
    destruct outcome as [e|response].
    - cbn. eauto.
    - destruct (json response) as [e|result].
      + cbn. eauto.
      + destruct (ok response); cbn [negb andb].
        * destruct (Js.truthy (result_image result)) eqn:T.
          -- unfold Js.truthy in T.
             destruct (result_image result) as [image|]; [|discriminate].
             cbn. auto.
          -- cbn. eauto.
        * cbn. eauto. }
  split; [|split; [exact S|]].
  - intros u c Hu Hc request st1 st'. subst st1 st'.
    unfold handleSubmit, handleSubmit_begin. rewrite Hu, Hc.
    fold request. cbn [fst snd].
    split; [repeat split|]. split; [reflexivity|].
    destruct (S (network request)
                (setImageUrl None (setError None (setIsLoading true st))))
      as (Hl & Hm).
    cbv zeta in Hl, Hm. split; [exact Hl|].
    destruct (generated_image (network request)) as [image|]; exact Hm.
  - intros H.
    assert (E : handleSubmit_begin st
                = (setError (Some validation_error) st, None)).
    { unfold handleSubmit_begin.
      destruct H as [H|H]; rewrite H; [reflexivity|].
      now destruct (userImage st). }
    split; [exact E|]. unfold handleSubmit. now rewrite E.
Qed.

End PageFacts.

(** *** The controller on concrete states *)

(** C2 (as stated) fails: a file of exactly 10MB is not rejected; it
    replaces the selected file and the error is cleared. *)
Lemma handleFileChange_accepts_ten_megabytes :
  (Page.size Samples.ten_megabytes >= 10 * 1024 * 1024)%Z
  /\ Page.userImage Samples.both_selected = Some Samples.photo
  /\ Page.userImage
       (fst (Page.onUserImageChange (Some Samples.ten_megabytes)
               Samples.both_selected))
     = Some Samples.ten_megabytes
  /\ Page.error
       (fst (Page.onUserImageChange (Some Samples.ten_megabytes)
               Samples.both_selected))
     = None
  /\ Page.userImage
       (fst (Page.onUserImageChange (Some Samples.ten_megabytes)
               Samples.both_selected))
     <> Page.userImage Samples.both_selected.
Proof.
  split; [cbn; lia|]. repeat split. cbn. discriminate.
Qed.

Lemma handleFileChange_size_limit_witness :
  (Page.size Samples.photo <= 10 * 1024 * 1024)%Z
  /\ (10 * 1024 * 1024 < Page.size Samples.eleven_megabytes)%Z
  /\ (exists r,
        Page.onUserImageChange (Some Samples.photo) Page.initial
        = (Page.setError None
             (Page.setUserImage (Some Samples.photo) Page.initial),
           Some r)
        /\ Page.reading r = Samples.photo
        /\ forall result s,
             Page.reader_done r result s = Page.setUserImagePreview result s)
  /\ Page.userImage
       (fst (Page.onUserImageChange (Some Samples.eleven_megabytes)
               Samples.both_selected))
     = Page.userImage Samples.both_selected.
Proof.
  split; [cbn; lia|]. split; [cbn; lia|]. split.
  - apply (proj1 (handleFileChange_size_limit Samples.photo Page.initial)).
    cbn. lia.
  - apply (proj2 (handleFileChange_size_limit Samples.eleven_megabytes
                    Samples.both_selected)).
    + cbn. lia.
    + left. reflexivity.
Defined.

(** C5 (as stated) fails: with two selected files of size zero the handler
    issues the POST; and the endpoint, given two files with no content,
    calls the model. *)
Lemma handleSubmit_posts_empty_files :
  Page.userImage Samples.both_empty_files = Some Samples.empty_photo
  /\ Page.clothingImage Samples.both_empty_files = Some Samples.empty_shirt
  /\ Page.size Samples.empty_photo = 0%Z
  /\ Page.size Samples.empty_shirt = 0%Z
  /\ snd (Page.handleSubmit Samples.network_ok Samples.both_empty_files)
     = [ {| Page.url := "/api/tryon"; Page.method := "POST";
            Page.body := [("userImage", Samples.empty_photo);
                          ("clothingImage", Samples.empty_shirt)] |} ]
  /\ snd (Route.POST (Samples.answering Samples.empty_response)
            {| Route.formData := inr Samples.empty_form |} [])
     = [Route.request_for Samples.empty_file Samples.empty_file].
Proof. repeat split. Qed.

Lemma handleSubmit_issues_iff_both_selected_witness :
  Page.userImage Samples.both_selected = Some Samples.photo
  /\ Page.clothingImage Samples.both_selected = Some Samples.shirt
  /\ snd (Page.handleSubmit_begin Samples.both_selected)
     = Some {| Page.url := "/api/tryon"; Page.method := "POST";
               Page.body := [("userImage", Samples.photo);
                             ("clothingImage", Samples.shirt)] |}
  /\ exists u c,
       Page.userImage Samples.both_selected = Some u
       /\ Page.clothingImage Samples.both_selected = Some c
       /\ {| Page.url := "/api/tryon"; Page.method := "POST";
             Page.body := [("userImage", Samples.photo);
                           ("clothingImage", Samples.shirt)] |}
          = {| Page.url := "/api/tryon"; Page.method := "POST";
               Page.body := [("userImage", u); ("clothingImage", c)] |}.
Proof.
  split; [reflexivity|]. split; [reflexivity|]. split.
  - apply (proj2 (handleSubmit_issues_iff_both_selected
                    Samples.both_selected));
      reflexivity.
  - apply (proj1 (handleSubmit_issues_iff_both_selected
                    Samples.both_selected)).
    reflexivity.
Defined.

Lemma handleSubmit_empty_slot_witness :
  (Page.userImage Samples.person_removed = None
   \/ Page.clothingImage Samples.person_removed = None)
  /\ snd (Page.handleSubmit Samples.network_ok Samples.person_removed) = []
  /\ Page.error
       (fst (Page.handleSubmit Samples.network_ok Samples.person_removed))
     = Some Page.validation_error.
Proof.
  split; [left; reflexivity|].
  pose proof (handleSubmit_empty_slot Samples.network_ok
                Samples.person_removed (or_introl eq_refl)) as H.
  cbv zeta in H. split; [apply H|]. apply H.
Defined.

(** C10 (as stated) fails, in two ways. After a successful generation the
    person-image picker is emptied; the next run of the handler fails its
    guard and leaves both the result and the error non-null. And in
    [Traces.oversize_while_pending] a run passes the guard and succeeds,
    while the error set by the file picked in between stays next to the
    result. *)
Lemma handleSubmit_guard_keeps_result :
  (Page.resultImageUrl Samples.after_success
   = Some "data:image/png;base64,AAAA"
   /\ Page.error Samples.after_success = None
   /\ Page.userImage Samples.person_removed = None
   /\ Page.resultImageUrl
        (fst (Page.handleSubmit Samples.network_ok Samples.person_removed))
      = Some "data:image/png;base64,AAAA"
   /\ Page.error
        (fst (Page.handleSubmit Samples.network_ok Samples.person_removed))
      = Some Page.validation_error)
  /\ (Session.sent (Session.run Traces.oversize_while_pending Session.start)
      = [Traces.tryon_request]
      /\ Session.in_flight
           (Session.run Traces.oversize_while_pending Session.start)
         = []
      /\ Page.isLoading
           (Session.state
              (Session.run Traces.oversize_while_pending Session.start))
         = false
      /\ Page.resultImageUrl
           (Session.state
              (Session.run Traces.oversize_while_pending Session.start))
         = Some "data:image/png;base64,AAAA"
      /\ Page.error
           (Session.state
              (Session.run Traces.oversize_while_pending Session.start))
         = Some Page.size_error).
Proof. split; repeat split. Qed.

Lemma handleSubmit_settles_witness :
  Page.userImage Samples.both_selected = Some Samples.photo
  /\ Page.clothingImage Samples.both_selected = Some Samples.shirt
  /\ (Page.userImage Samples.person_removed = None
      \/ Page.clothingImage Samples.person_removed = None)
  /\ snd (Page.handleSubmit_begin Samples.both_selected)
     = Some Traces.tryon_request
  /\ Page.isLoading
       (fst (Page.handleSubmit Samples.network_500 Samples.both_selected))
     = false
  /\ Page.resultImageUrl
       (fst (Page.handleSubmit Samples.network_500 Samples.both_selected))
     = None
  /\ Page.resultImageUrl
       (fst (Page.handleSubmit Samples.network_ok Samples.both_selected))
     = Some "data:image/png;base64,AAAA"
  /\ Page.error
       (fst (Page.handleSubmit Samples.network_ok Samples.both_selected))
     = None
  /\ Page.handleSubmit Samples.network_ok Samples.person_removed
     = (Page.setError (Some Page.validation_error) Samples.person_removed,
        []).
Proof.
  split; [reflexivity|]. split; [reflexivity|].
  split; [left; reflexivity|].
  pose proof (handleSubmit_settles Samples.network_500
                Samples.both_selected) as (H5 & _ & _).
  pose proof (handleSubmit_settles Samples.network_ok
                Samples.both_selected) as (Hok & _ & _).
  pose proof (handleSubmit_settles Samples.network_ok
                Samples.person_removed) as (_ & _ & Hg).
  specialize (H5 Samples.photo Samples.shirt eq_refl eq_refl).
  specialize (Hok Samples.photo Samples.shirt eq_refl eq_refl).
  specialize (Hg (or_introl eq_refl)).
  cbv zeta in H5, Hok.
  destruct H5 as ((Hb & _) & _ & Hl & Hr).
  destruct Hok as (_ & _ & _ & Ho).
  split; [exact Hb|]. split; [exact Hl|]. split; [exact (proj1 Hr)|].
  split; [exact (proj1 Ho)|]. split; [exact (proj2 Ho)|].
  exact (proj2 Hg).
Defined.

(** * Further properties of the code *)

(** ** [arrayBufferToBase64]: shape of the output *)

Section Base64Shape.

Import Base64.

Local Ltac euclid := zify; Z.to_euclidean_division_equations; lia.

Lemma encode_length (octets : list N) :
  String.length (encode octets) = (4 * ((List.length octets + 2) / 3))%nat.
Proof.
  induction octets as [|a|a b|a b c l IH] using list_ind3.
  - reflexivity.
  - reflexivity.
  - reflexivity.
  - change (String.length (encode (a :: b :: c :: l)))
      with (4 + String.length (encode l))%nat.
    rewrite IH. cbn [List.length].
    replace (S (S (S (List.length l))) + 2)%nat
      with (1 * 3 + (List.length l + 2))%nat by lia.
    rewrite Nat.div_add_l by lia. lia.
Qed.

Lemma encode_sextet_char_nat (n : nat) :
  (n < 64)%nat ->
  In (encode_sextet (N.of_nat n)) (list_ascii_of_string alphabet).
Proof.
  intros H.
  do 64 (destruct n as [|n];
         [cbv; repeat (first [left; reflexivity | right]) |]).
  lia.
Qed.

Lemma encode_sextet_char (v : N) :
  (v < 64)%N ->
  In (encode_sextet v) (list_ascii_of_string alphabet)
  \/ encode_sextet v = pad.
Proof.
  intros H. left. rewrite <- (N2Nat.id v).
  apply encode_sextet_char_nat. lia.
Qed.

Lemma encode_chars (octets : list N) :
  Forall (fun o => (o <= 255)%N) octets ->
  Forall (fun c => In c (list_ascii_of_string alphabet) \/ c = pad)
    (list_ascii_of_string (encode octets)).
Proof.
  induction octets as [|a|a b|a b c l IH] using list_ind3; intros H.
  - constructor.
  - inversion H; subst. cbn [encode list_ascii_of_string].
    repeat (apply Forall_cons;
            [first [apply encode_sextet_char; euclid | right; reflexivity]|]).
    apply Forall_nil.
  - inversion H as [|? ? Ha H']; subst. inversion H'; subst.
    cbn [encode list_ascii_of_string].
    repeat (apply Forall_cons;
            [first [apply encode_sextet_char; euclid | right; reflexivity]|]).
    apply Forall_nil.
  - inversion H as [|? ? Ha H']; subst.
    inversion H' as [|? ? Hb H'']; subst.
    inversion H'' as [|? ? Hc Hl]; subst.
    change (encode (a :: b :: c :: l))
      with (let n := (a * 65536 + b * 256 + c)%N in
            String (encode_sextet (n / 262144))
              (String (encode_sextet ((n / 4096) mod 64))
                 (String (encode_sextet ((n / 64) mod 64))
                    (String (encode_sextet (n mod 64)) (encode l))))).
    cbv zeta. cbn [list_ascii_of_string].
    do 4 (apply Forall_cons; [apply encode_sextet_char; euclid|]).
    now apply IH.
Qed.

Lemma encode_app (xs ys : list N) :
  (List.length xs mod 3 = 0)%nat ->
  encode (xs ++ ys) = (encode xs ++ encode ys)%string.
Proof.
  induction xs as [|a|a b|a b c l IH] using list_ind3; intros H.
  - reflexivity.
  - discriminate.
  - discriminate.
  - change (encode ((a :: b :: c :: l) ++ ys))
      with (let n := (a * 65536 + b * 256 + c)%N in
            String (encode_sextet (n / 262144))
              (String (encode_sextet ((n / 4096) mod 64))
                 (String (encode_sextet ((n / 64) mod 64))
                    (String (encode_sextet (n mod 64)) (encode (l ++ ys)))))).
    cbv zeta. rewrite IH; [reflexivity|].
    cbn [List.length] in H.
    replace (S (S (S (List.length l)))) with (List.length l + 1 * 3)%nat
      in H by lia.
    now rewrite Nat.Div0.mod_add in H.
Qed.

(** X1. The output has four characters for every three bytes of the buffer,
    the last group rounded up. *)
Theorem arrayBufferToBase64_length (buffer : list byte) :
  exists s,
    Route.arrayBufferToBase64 buffer = inr s
    /\ String.length s = (4 * ((List.length buffer + 2) / 3))%nat.
Proof.
  exists (encode (map Byte.to_N buffer)). split.
  - apply arrayBufferToBase64_encode.
  - now rewrite encode_length, length_map.
Qed.

(** X2. Every character of the output is a character of the base 64
    alphabet or the pad character. *)
Theorem arrayBufferToBase64_alphabet (buffer : list byte) :
  exists s,
    Route.arrayBufferToBase64 buffer = inr s
    /\ Forall (fun c => In c (list_ascii_of_string alphabet) \/ c = pad)
         (list_ascii_of_string s).
Proof.
  exists (encode (map Byte.to_N buffer)). split.
  - apply arrayBufferToBase64_encode.
  - apply (encode_chars (map Byte.to_N buffer)), to_N_octets.
Qed.

(** X3. Different buffers are encoded differently. *)
Theorem arrayBufferToBase64_injective (b1 b2 : list byte) :
  Route.arrayBufferToBase64 b1 = Route.arrayBufferToBase64 b2 -> b1 = b2.
Proof.
  rewrite !arrayBufferToBase64_encode. intros H.
  assert (E : decode_bytes (encode (map Byte.to_N b1))
              = decode_bytes (encode (map Byte.to_N b2)))
    by (injection H as H; now rewrite H).
  unfold decode_bytes in E.
  rewrite !decode_encode in E by apply to_N_octets.
  rewrite !to_bytes_to_N in E. now injection E.
Qed.

(** X4. When the length of a buffer is a multiple of three, encoding it
    followed by a second buffer gives the two encodings one after the
    other. *)
Theorem arrayBufferToBase64_app (b1 b2 : list byte) :
  (List.length b1 mod 3 = 0)%nat ->
  exists s1 s2,
    Route.arrayBufferToBase64 b1 = inr s1
    /\ Route.arrayBufferToBase64 b2 = inr s2
    /\ Route.arrayBufferToBase64 (b1 ++ b2) = inr (s1 ++ s2)%string.
Proof.
  intros H.
  exists (encode (map Byte.to_N b1)), (encode (map Byte.to_N b2)).
  rewrite !arrayBufferToBase64_encode. repeat split.
  rewrite map_app, encode_app; [reflexivity|].
  now rewrite length_map.
Qed.

End Base64Shape.

(** ** The endpoint on every request *)

Section EndpointTotal.

Import Route.

Variable generateContent :
  GenerateContentParameters -> Js.Thrown + GenerateContentResponse.

(** The answer to a form in which one of the two fields is not a file. *)
Lemma POST_not_both_files (fd : FormData) (w : Calls) :
  (forall u c,
     FormData_get "userImage" fd = Some (EntryFile u) ->
     FormData_get "clothingImage" fd = Some (EntryFile c) -> False) ->
  POST generateContent {| formData := inr fd |} w =
  (inr (if negb (entry_truthy (FormData_get "userImage" fd))
           || negb (entry_truthy (FormData_get "clothingImage" fd))
        then {| status := 400;
                body :=
                  ErrorBody
                    "Both userImage and clothingImage files are required"
                    None |}
        else {| status := 500;
                body :=
                  ErrorBody "Failed to process virtual try-on request"
                    (Some
                       (match FormData_get "userImage" fd with
                        | Some (EntryFile _) => "clothingImageFile"
                        | _ => "userImageFile"
                        end ++ ".arrayBuffer is not a function")) |}),
   w).
Proof.
  intros H. unfold POST, try_catch. cbn [formData].
  destruct (FormData_get "userImage" fd) as [[u|s]|];
    destruct (FormData_get "clothingImage" fd) as [[c|s']|];
    cbn [entry_truthy negb orb]; try reflexivity.
  - destruct (H u c eq_refl eq_refl).
  - destruct (String.eqb s' ""); cbn [negb]; [reflexivity|].
    cbn [arrayBuffer]. unfold bind at 1. unfold ret at 1.
    rewrite arrayBufferToBase64_encode. cbn [lift].
    unfold bind at 1. unfold ret at 1.
    unfold bind at 1. reflexivity.
  - destruct (String.eqb s ""); reflexivity.
  - destruct (String.eqb s ""); cbn [negb orb]; [reflexivity|].
    destruct (String.eqb s' ""); reflexivity.
  - destruct (String.eqb s ""); reflexivity.
Qed.

Lemma both_files_dec (fd : FormData) :
  (exists u c,
     FormData_get "userImage" fd = Some (EntryFile u)
     /\ FormData_get "clothingImage" fd = Some (EntryFile c))
  \/ (forall u c,
        FormData_get "userImage" fd = Some (EntryFile u) ->
        FormData_get "clothingImage" fd = Some (EntryFile c) -> False).
Proof.
  destruct (FormData_get "userImage" fd) as [[u|s]|];
    destruct (FormData_get "clothingImage" fd) as [[c|s']|];
    try (right; intros; discriminate).
  left. now exists u, c.
Qed.

(** X5. Every request is answered: the handler never throws, its status is
    200, 400 or 500, the body is a result exactly when the status is 200,
    and it leaves the earlier calls as they were, adding at most one. *)
Theorem POST_always_answers (req : NextRequest) (w : Calls) :
  exists resp w',
    POST generateContent req w = (inr resp, w')
    /\ (status resp = 200 \/ status resp = 400 \/ status resp = 500)%Z
    /\ (status resp = 200%Z <->
        exists image description, body resp = ResultBody image description)
    /\ (w' = w \/ exists p, w' = (w ++ [p])%list).
Proof.
  destruct req as [[formError|fd]].
  - eexists _, _. split; [reflexivity|]. cbn [status body].
    split; [auto|]. split; [|auto].
    split; [discriminate | intros (? & ? & ?); discriminate].
  - destruct (both_files_dec fd) as [(u & c & Hu & Hc)|H].
    + rewrite (POST_calls_model generateContent fd u c w Hu Hc). cbv zeta.
      eexists _, _. split; [reflexivity|].
      split; [|split; [|right; eauto]].
      * destruct (generateContent (request_for u c)) as [[m|r]|response];
          cbn; auto.
        destruct (process_response response); cbn; auto.
      * destruct (generateContent (request_for u c)) as [[m|r]|response];
          cbn [status body json json_with];
          try (split; [discriminate | intros (? & ? & ?); discriminate]).
        destruct (process_response response) as [e|x];
          cbn [status body json json_with result_body].
        -- split; [discriminate | intros (? & ? & ?); discriminate].
        -- split; [intros _; unfold result_body; eauto | reflexivity].
    + rewrite (POST_not_both_files fd w H).
      eexists _, _. split; [reflexivity|].
      destruct (negb (entry_truthy (FormData_get "userImage" fd))
                || negb (entry_truthy (FormData_get "clothingImage" fd)));
        cbn [status body]; (split; [auto|]); (split; [|auto]);
        (split; [discriminate | intros (? & ? & ?); discriminate]).
Qed.

(** X6. The model is called exactly when both fields of a parsed form are
    files, and then once, with the request built from the two files: a
    request that fails to parse, a missing field or a field sent as text
    leaves the calls as they were. *)
Theorem POST_calls_iff_both_files (req : NextRequest) (w : Calls) :
  snd (POST generateContent req w) =
  match formData req with
  | inr fd =>
      match FormData_get "userImage" fd, FormData_get "clothingImage" fd with
      | Some (EntryFile u), Some (EntryFile c) =>
          (w ++ [request_for u c])%list
      | _, _ => w
      end
  | inl _ => w
  end.
Proof.
  destruct req as [[formError|fd]]; cbn [formData]; [reflexivity|].
  destruct (both_files_dec fd) as [(u & c & Hu & Hc)|H].
  - rewrite (POST_calls_model generateContent fd u c w Hu Hc).
    now rewrite Hu, Hc.
  - rewrite (POST_not_both_files fd w H). cbn [snd].
    destruct (FormData_get "userImage" fd) as [[u|s]|];
      destruct (FormData_get "clothingImage" fd) as [[c|s']|];
      try reflexivity.
    destruct (H u c eq_refl eq_refl).
Qed.

(** X7. A field sent as text instead of a file, the other field being
    present: empty text counts as a missing field (400); non-empty text
    passes the presence check and the request fails with 500. In both cases
    the model is not called. *)
Theorem POST_text_field (fd : FormData) (s : string) (w : Calls) :
  (FormData_get "userImage" fd = Some (EntryString s)
   /\ entry_truthy (FormData_get "clothingImage" fd) = true)
  \/ (FormData_get "clothingImage" fd = Some (EntryString s)
      /\ entry_truthy (FormData_get "userImage" fd) = true) ->
  exists resp,
    POST generateContent {| formData := inr fd |} w = (inr resp, w)
    /\ status resp = (if String.eqb s "" then 400 else 500)%Z.
Proof.
  intros H.
  rewrite POST_not_both_files.
  - eexists. split; [reflexivity|].
    destruct H as [[H Ho]|[H Ho]]; rewrite H, Ho;
      cbn [entry_truthy negb orb]; destruct (String.eqb s "");
      reflexivity.
  - intros u c Hu Hc. destruct H as [[H _]|[H _]]; congruence.
Qed.

(** X8. When the call to the model fails, the answer is 500 and carries the
    failure: "Failed during API call: " and the message of a thrown Error,
    or a fixed text for any other thrown value. The call is not repeated. *)
Theorem POST_model_failure
    (fd : FormData) (u c : File) (w : Calls) (e : Js.Thrown) :
  FormData_get "userImage" fd = Some (EntryFile u) ->
  FormData_get "clothingImage" fd = Some (EntryFile c) ->
  generateContent (request_for u c) = inl e ->
  POST generateContent {| formData := inr fd |} w =
  (inr {| status := 500;
          body :=
            ErrorBody "Failed to process virtual try-on request"
              (Some match e with
                    | Js.ErrorObj m => "Failed during API call: " ++ m
                    | Js.NonError _ =>
                        "An unknown error occurred during the API call"
                    end) |},
   (w ++ [request_for u c])%list).
Proof.
  intros Hu Hc He.
  rewrite (POST_calls_model generateContent fd u c w Hu Hc). cbv zeta.
  rewrite He. now destruct e.
Qed.

Lemma or_default_nonempty (v : option string) (d : string) :
  d <> "" -> Js.or_default v d <> "".
Proof.
  intros Hd. unfold Js.or_default, Js.truthy.
  destruct v as [s|]; [|exact Hd].
  destruct (String.eqb_spec s ""); cbn [negb]; assumption.
Qed.

Lemma extract_mime_nonempty (ps : list Part) :
  imageMimeType (extract ps) <> "".
Proof.
  unfold extract.
  destruct (extract_from ps extracted_init) as (_ & Hm & _).
  rewrite Hm. destruct (last_inline ps) as [b|].
  - apply or_default_nonempty. discriminate.
  - discriminate.
Qed.

(** X9. In every 200 answer the description is not empty, and the image,
    when it is not null, is [data:] ++ m ++ [;base64,] ++ d for a non-empty
    MIME type m and a non-empty payload d. *)
Theorem POST_result_well_formed
    (req : NextRequest) (w w' : Calls) (resp : NextResponse) :
  POST generateContent req w = (inr resp, w') ->
  status resp = 200%Z ->
  exists image description,
    body resp = ResultBody image description
    /\ description <> ""
    /\ forall url, image = Some url ->
         exists m d,
           url = "data:" ++ m ++ ";base64," ++ d /\ m <> "" /\ d <> "".
Proof.
  intros HP Hs.
  destruct req as [[formError|fd]].
  - injection HP as <- _. discriminate.
  - destruct (both_files_dec fd) as [(u & c & Hu & Hc)|H].
    + rewrite (POST_calls_model generateContent fd u c w Hu Hc) in HP.
      cbv zeta in HP. injection HP as <- _.
      destruct (generateContent (request_for u c)) as [[m|r]|response];
        try discriminate.
      unfold process_response in *.
      assert (G : forall x : Extracted,
                 imageMimeType x <> "" ->
                 exists image description,
                   body (json (result_body x)) = ResultBody image description
                   /\ description <> ""
                   /\ forall url, image = Some url ->
                        exists m d,
                          url = "data:" ++ m ++ ";base64," ++ d
                          /\ m <> "" /\ d <> "").
      { intros x Hx. eexists _, _. split; [reflexivity|]. split.
        - apply or_default_nonempty. discriminate.
        - intros url. unfold Js.truthy.
          destruct (imageData x) as [d|]; [|discriminate].
          destruct (String.eqb_spec d ""); cbn [negb]; [discriminate|].
          intros [= <-]. now exists (imageMimeType x), d. }
      destruct (candidates response) as [[|cand cands]|].
      * destruct (safetyFeedback response) as [reason|]; [|discriminate].
        destruct (Js.truthy (Some reason)); discriminate.
      * destruct (first_parts (cand :: cands)) as [ps|]; apply G.
        -- apply extract_mime_nonempty.
        -- discriminate.
      * destruct (safetyFeedback response) as [reason|]; [|discriminate].
        destruct (Js.truthy (Some reason)); discriminate.
    + rewrite (POST_not_both_files fd w H) in HP. injection HP as <- _.
      destruct (negb (entry_truthy (FormData_get "userImage" fd))
                || negb (entry_truthy (FormData_get "clothingImage" fd)));
        discriminate.
Qed.

End EndpointTotal.

(** ** One image and one text, in any order *)

Section EndpointSegments.

Import Route.

Variable generateContent :
  GenerateContentParameters -> Js.Thrown + GenerateContentResponse.

Lemma find_hd_filter {A} (f : A -> bool) (l : list A) :
  find f l = hd_error (filter f l).
Proof.
  induction l as [|x l IH]; [reflexivity|].
  cbn [find filter]. now destruct (f x).
Qed.

Lemma find_rev_single {A} (f : A -> bool) (l : list A) (x : A) :
  filter f l = [x] -> find f (rev l) = Some x.
Proof.
  intros H. now rewrite find_hd_filter, filter_rev, H.
Qed.

(** X10. When the first candidate has exactly one inline-data segment, with
    non-empty data d and MIME type m, and exactly one text segment, with
    text t, the answer is 200 with [image] the data URL of m (or of
    [image/png] when m is unspecified or empty) and d, and [description]
    t, whatever the order of the two segments and whatever other segments
    lie between them. *)
Theorem POST_one_image_one_text
    (fd : FormData) (u c : File) (w : Calls)
    (response : GenerateContentResponse)
    (cand : Candidate) (cands : list Candidate)
    (ps : list Part) (pimg ptxt : Part)
    (m : option string) (d t : string) :
  FormData_get "userImage" fd = Some (EntryFile u) ->
  FormData_get "clothingImage" fd = Some (EntryFile c) ->
  generateContent (request_for u c) = inr response ->
  candidates response = Some (cand :: cands) ->
  first_parts (cand :: cands) = Some ps ->
  filter has_inline ps = [pimg] ->
  inlineData pimg = Some {| mimeType := m; data := Some d |} ->
  d <> "" ->
  filter is_text ps = [ptxt] ->
  text ptxt = Some t ->
  POST generateContent {| formData := inr fd |} w =
  (inr {| status := 200;
          body :=
            ResultBody
              (Some ("data:" ++ Js.or_default m "image/png"
                       ++ ";base64," ++ d))
              t |},
   (w ++ [request_for u c])%list).
Proof.
  intros Hu Hc Hg Hcs Hps Himg Hblob Hd Htxt Ht.
  rewrite (POST_calls_model generateContent fd u c w Hu Hc). cbv zeta.
  rewrite Hg. unfold process_response. rewrite Hcs, Hps.
  unfold json, json_with, result_body, extract.
  destruct (extract_from ps extracted_init) as (Ed & Em & Et).
  assert (Li : last_inline ps = Some {| mimeType := m; data := Some d |}).
  { unfold last_inline, first_inline.
    now rewrite (find_rev_single has_inline ps pimg Himg). }
  assert (Lt : last_text ps = Some t).
  { unfold last_text, first_text.
    now rewrite (find_rev_single is_text ps ptxt Htxt). }
  rewrite Ed, Em, Et, Li, Lt. cbn [data mimeType].
  assert (Td : Js.truthy (Some d) = true).
  { unfold Js.truthy. now destruct (String.eqb_spec d ""). }
  assert (Tt : Js.truthy (Some t) = true).
  { assert (I : In ptxt (filter is_text ps)) by (rewrite Htxt; now left).
    apply filter_In in I. destruct I as [_ I].
    unfold is_text in I. apply andb_true_iff in I.
    rewrite <- Ht. apply I. }
  rewrite Td. unfold Js.or_default at 2. rewrite Tt. reflexivity.
Qed.

End EndpointSegments.

(** *** The further properties on concrete inputs *)

Lemma arrayBufferToBase64_injective_witness :
  Route.arrayBufferToBase64 (list_byte_of_string "foo")
  = Route.arrayBufferToBase64 (list_byte_of_string "foo")
  /\ list_byte_of_string "foo" = list_byte_of_string "foo".
Proof.
  split; [reflexivity|].
  exact (arrayBufferToBase64_injective
           (list_byte_of_string "foo") (list_byte_of_string "foo") eq_refl).
Defined.

Lemma arrayBufferToBase64_app_witness :
  (List.length (list_byte_of_string "foo") mod 3 = 0)%nat
  /\ exists s1 s2,
       Route.arrayBufferToBase64 (list_byte_of_string "foo") = inr s1
       /\ Route.arrayBufferToBase64 (list_byte_of_string "ba") = inr s2
       /\ Route.arrayBufferToBase64
            (list_byte_of_string "foo" ++ list_byte_of_string "ba")
          = inr (s1 ++ s2)%string.
Proof.
  split; [reflexivity|].
  exact (arrayBufferToBase64_app
           (list_byte_of_string "foo") (list_byte_of_string "ba") eq_refl).
Defined.

(** ** The page over any sequence of events *)

Section SessionFacts.

Import Page Session Invariant.

Local Open Scope Z_scope.

Lemma Forall_remove_nth {A} (P : A -> Prop) (n : nat) (l : list A) :
  Forall P l -> Forall P (remove_nth n l).
Proof.
  revert n. induction l as [|x l IH]; intros n H.
  - destruct n; constructor.
  - inversion H; subst. destruct n as [|n]; cbn [remove_nth].
    + assumption.
    + constructor; auto.
Qed.

Lemma settle_keeps_files (outcome : FetchOutcome) (st : State) :
  userImage (handleSubmit_settle outcome st) = userImage st
  /\ clothingImage (handleSubmit_settle outcome st) = clothingImage st
  /\ isLoading (handleSubmit_settle outcome st) = false.
Proof.
  unfold handleSubmit_settle, try_block.
  destruct outcome as [e|response]; [repeat split|].
  destruct (json response) as [e|result]; [repeat split|].
  destruct (negb (ok response)); [repeat split|].
  destruct (Js.truthy (result_image result)); repeat split.
Qed.

Lemma holds_start : holds start.
Proof.
  unfold holds, selected_within_limit. cbn.
  repeat split; try constructor; discriminate.
Qed.

Lemma change_keeps
    (setImage : option File -> State -> State)
    (setPreview : option string -> State -> State)
    (file0 : option File) (s : Session) :
  (forall v st,
     selected_within_limit st ->
     (forall f, v = Some f -> within_limit f) ->
     selected_within_limit (setImage v st)) ->
  (forall v st, isLoading (setImage v st) = isLoading st
                /\ resultImageUrl (setImage v st) = resultImageUrl st) ->
  (forall v st, selected_within_limit st ->
                selected_within_limit (setPreview v st)) ->
  (forall v st, isLoading (setPreview v st) = isLoading st
                /\ resultImageUrl (setPreview v st) = resultImageUrl st) ->
  (forall file,
     preview_only {| reading := file;
                     onloadend := fun result => setPreview result |}) ->
  holds s ->
  holds
    (let (st', r) := handleFileChange file0 setImage setPreview (state s) in
     {| state := st'; readers := readers s ++ opt_list r;
        in_flight := in_flight s; inputs := inputs s; sent := sent s |}).
Proof.
  intros Hsel Hkeep Hpsel Hpkeep Hr (Hrd & Hs & Hsent & Hload).
  unfold handleFileChange.
  destruct file0 as [file|].
  - destruct (size file >? 10 * 1024 * 1024) eqn:E.
    + unfold holds. cbn [state readers in_flight sent opt_list].
      rewrite app_nil_r. repeat split; try assumption; try apply Hs;
        apply Hload; assumption.
    + assert (Hf : within_limit file).
      { unfold within_limit. rewrite Z.gtb_ltb in E.
        now apply Z.ltb_ge in E. }
      unfold holds. cbn [state readers in_flight sent opt_list].
      split; [|split; [|split]].
      * apply Forall_app. split; [assumption|].
        constructor; [apply Hr|constructor].
      * assert (G : selected_within_limit (setImage (Some file) (state s))).
        { apply Hsel; [assumption|]. intros f [= <-]. exact Hf. }
        split; apply G.
      * assumption.
      * destruct (Hkeep (Some file) (state s)) as (Kl & Kr).
        cbn [isLoading resultImageUrl setError]. rewrite Kl, Kr.
        exact Hload.
  - unfold holds. cbn [state readers in_flight sent opt_list].
    rewrite app_nil_r.
    split; [assumption|]. split; [|split; [assumption|]].
    + apply Hpsel, Hsel; [assumption|discriminate].
    + destruct (Hpkeep None (setImage None (state s))) as (Kl & Kr).
      destruct (Hkeep None (state s)) as (Kl' & Kr').
      rewrite Kl, Kr, Kl', Kr'. exact Hload.
Qed.

Lemma step_keeps (e : Event) (s : Session) : holds s -> holds (step e s).
Proof.
  intros H. destruct e as [file0|file0|n result| |n outcome|].
  - apply change_keeps; try assumption.
    + intros v st (Hu & Hc) Hv. split; cbn; auto.
    + intros v st. split; reflexivity.
    + intros v st Hst. exact Hst.
    + intros v st. split; reflexivity.
    + intros file. left. reflexivity.
  - apply change_keeps; try assumption.
    + intros v st (Hu & Hc) Hv. split; cbn; auto.
    + intros v st. split; reflexivity.
    + intros v st Hst. exact Hst.
    + intros v st. split; reflexivity.
    + intros file. right. reflexivity.
  - pose proof H as (Hrd & Hs & Hsent & Hload). cbn [step].
    destruct (nth_error (readers s) n) as [r|] eqn:E; [|exact H].
    assert (Hr : preview_only r).
    { rewrite Forall_forall in Hrd. apply Hrd.
      now apply nth_error_In with n. }
    unfold holds. cbn [state readers in_flight sent]. unfold reader_done.
    split; [now apply Forall_remove_nth|].
    destruct Hr as [Hr|Hr]; rewrite Hr;
      (split; [exact Hs|]); (split; [exact Hsent|]); exact Hload.
  - destruct H as (Hrd & (Hu & Hc) & Hsent & Hload).
    cbn [step]. unfold handleSubmit_begin.
    destruct (userImage (state s)) as [u|] eqn:Eu;
      [destruct (clothingImage (state s)) as [c|] eqn:Ec|].
    + unfold holds. cbn [state readers in_flight sent opt_list].
      split; [assumption|]. split; [|split].
      * split; cbn; intros f Hf.
        -- apply Hu. congruence.
        -- apply Hc. congruence.
      * apply Forall_app. split; [assumption|].
        constructor; [|constructor].
        exists u, c. repeat split; [apply Hu | apply Hc]; reflexivity.
      * intros _. split; [reflexivity|].
        destruct (in_flight s); discriminate.
    + unfold holds. cbn [state readers in_flight sent opt_list].
      rewrite !app_nil_r.
      split; [assumption|]. split; [|split; [assumption|exact Hload]].
      split; cbn; intros f Hf; [apply Hu | apply Hc]; congruence.
    + unfold holds. cbn [state readers in_flight sent opt_list].
      rewrite !app_nil_r.
      split; [assumption|]. split; [|split; [assumption|exact Hload]].
      split; cbn; intros f Hf; [apply Hu | apply Hc]; congruence.
  - pose proof H as (Hrd & (Hu & Hc) & Hsent & Hload). cbn [step].
    destruct (nth_error (in_flight s) n) as [rq|]; [|exact H].
    destruct (settle_keeps_files outcome (state s)) as (Ku & Kc & Kl).
    unfold holds. cbn [state readers in_flight sent].
    split; [assumption|]. split; [|split; [assumption|]].
    + split; intros f Hf; [apply Hu | apply Hc]; congruence.
    + rewrite Kl. discriminate.
  - destruct H as (Hrd & Hs & Hsent & Hload).
    unfold holds. cbn.
    repeat split; try assumption; discriminate.
Qed.

Lemma run_keeps (events : list Event) (s : Session) :
  holds s -> holds (run events s).
Proof.
  unfold run. revert s.
  induction events as [|e events IH]; intros s H; [exact H|].
  cbn [fold_left]. apply IH, step_keeps, H.
Qed.

(** X11. Whatever the user does and whenever readers finish and requests
    settle, no file over 10MB is ever selected, and every request sent to
    the endpoint carries exactly the two fields [userImage] and
    [clothingImage], each a file of at most 10MB. *)
Theorem session_size_limit (events : list Event) :
  let s := run events start in
  (forall f, userImage (state s) = Some f -> size f <= 10 * 1024 * 1024)
  /\ (forall f, clothingImage (state s) = Some f ->
                size f <= 10 * 1024 * 1024)
  /\ forall rq, In rq (sent s) ->
       exists u c,
         body rq = [("userImage"%string, u); ("clothingImage"%string, c)]
         /\ size u <= 10 * 1024 * 1024 /\ size c <= 10 * 1024 * 1024.
Proof.
  intros s.
  destruct (run_keeps events start holds_start)
    as (_ & (Hu & Hc) & Hsent & _).
  fold s in Hu, Hc, Hsent.
  split; [exact Hu|]. split; [exact Hc|].
  intros rq Hin. rewrite Forall_forall in Hsent. exact (Hsent rq Hin).
Qed.

(** X12. Whatever the sequence of events, while the loading flag is set
    no result is stored and at least one request is pending. *)
Theorem session_loading (events : list Event) :
  let s := run events start in
  isLoading (state s) = true ->
  resultImageUrl (state s) = None /\ in_flight s <> [].
Proof.
  intros s.
  destruct (run_keeps events start holds_start) as (_ & _ & _ & Hload).
  exact Hload.
Qed.

End SessionFacts.

(** ** The handlers and what the page shows *)

Section PageMore.

Import Page.

Local Open Scope Z_scope.

(** X13. The submit button and the guard of the handler agree: when the
    button is enabled the handler passes its guard and issues the request,
    and the button is disabled from then until the request settles; when a
    slot is empty the button is disabled. *)
Theorem submit_button_guard (st : State) :
  (View.submit_disabled st = false ->
   exists u c,
     userImage st = Some u /\ clothingImage st = Some c
     /\ snd (handleSubmit_begin st)
        = Some {| url := "/api/tryon"; method := "POST";
                  body := [("userImage"%string, u);
                           ("clothingImage"%string, c)] |}
     /\ View.submit_disabled (fst (handleSubmit_begin st)) = true)
  /\ (userImage st = None \/ clothingImage st = None ->
      View.submit_disabled st = true).
Proof.
  unfold View.submit_disabled, handleSubmit_begin. split.
  - intros H.
    destruct (userImage st) as [u|], (clothingImage st) as [c|];
      try (rewrite ?orb_true_r in H; cbn in H;
           rewrite ?orb_true_r in H; discriminate).
    exists u, c. repeat split.
  - intros [H|H]; rewrite H; cbn [negb];
      now rewrite ?orb_true_r.
Qed.


(** X15. Reset returns the page to its initial state and empties both file
    inputs, from any state. It cancels nothing: the readers and requests
    that are pending stay pending, and a request that settles afterwards
    with a generated image still stores it as the result. *)
Theorem reset_session (s : Session.Session) :
  Session.state (Session.step Session.Reset s) = initial
  /\ Session.inputs (Session.step Session.Reset s)
     = {| userFileInput := ""; clothingFileInput := "" |}
  /\ View.submit_disabled initial = true
  /\ Session.readers (Session.step Session.Reset s) = Session.readers s
  /\ Session.in_flight (Session.step Session.Reset s) = Session.in_flight s
  /\ forall outcome image,
       generated_image outcome = Some image ->
       resultImageUrl (handleSubmit_settle outcome initial) = Some image.
Proof.
  repeat split.
  intros outcome image H.
  unfold generated_image in H.
  unfold handleSubmit_settle, try_block.
  destruct outcome as [e|response]; [discriminate|].
  destruct (json response) as [e|result]; [discriminate|].
  destruct (ok response); cbn [andb negb] in *; [|discriminate].
  destruct (Js.truthy (result_image result)); [|discriminate].
  cbn. exact H.
Qed.

(** X16. The preview follows the reader that finishes last, not the file
    selected last. When two files within the limit are picked one after
    the other in the person slot and the first read finishes after the
    second, the slot holds the second file with the preview of the first;
    and when the slot is emptied while a read is pending, the read still
    stores its preview in the empty slot. *)
Theorem preview_follows_last_reader (f g : File) (st : State) :
  size f <= 10 * 1024 * 1024 ->
  size g <= 10 * 1024 * 1024 ->
  exists rf rg,
    snd (onUserImageChange (Some f) st) = Some rf
    /\ snd (onUserImageChange (Some g)
              (fst (onUserImageChange (Some f) st)))
       = Some rg
    /\ (forall uf ug,
          let st2 :=
            fst (onUserImageChange (Some g)
                   (fst (onUserImageChange (Some f) st))) in
          let st4 := reader_done rf uf (reader_done rg ug st2) in
          userImage st4 = Some g /\ userImagePreview st4 = uf)
    /\ (forall uf,
          let st2 :=
            fst (onUserImageChange None
                   (fst (onUserImageChange (Some f) st))) in
          let st3 := reader_done rf uf st2 in
          userImage st3 = None /\ userImagePreview st3 = uf).
Proof.
  intros Hf Hg.
  unfold onUserImageChange, handleFileChange.
  replace (size f >? 10 * 1024 * 1024) with false
    by (symmetry; rewrite Z.gtb_ltb; apply Z.ltb_ge; exact Hf).
  replace (size g >? 10 * 1024 * 1024) with false
    by (symmetry; rewrite Z.gtb_ltb; apply Z.ltb_ge; exact Hg).
  eexists _, _. split; [reflexivity|]. split; [reflexivity|].
  split; intros; split; reflexivity.
Qed.

End PageMore.

(** ** The endpoint's error as the client shows it *)

(** X17. The [error] text of every 500 answer of the endpoint is the fixed
    "Failed to process virtual try-on request", whatever failed; a client
    that receives it in a non-[ok] answer shows exactly that text, without
    the safety hint, also when the model blocked the request for safety. *)
Theorem server_error_as_shown
    (generateContent :
       Route.GenerateContentParameters ->
       Js.Thrown + Route.GenerateContentResponse)
    (req : Route.NextRequest) (w w' : Route.Calls)
    (resp : Route.NextResponse) (e : string) (details : option string)
    (response : Page.Response) (result : Page.ApiResult)
    (pending : Page.State) :
  Route.POST generateContent req w = (inr resp, w') ->
  Route.status resp = 500%Z ->
  Route.body resp = Route.ErrorBody e details ->
  Page.ok response = false ->
  Page.json response = inr result ->
  Page.result_error result = Some e ->
  e = "Failed to process virtual try-on request"
  /\ Page.error (Page.handleSubmit_settle (inr response) pending) = Some e
  /\ View.shows_error (Page.handleSubmit_settle (inr response) pending)
     = true
  /\ View.shows_safety_hint
       (Page.handleSubmit_settle (inr response) pending)
     = false.
Proof.
  intros HP Hs Hb Hok Hj He.
  assert (E : e = "Failed to process virtual try-on request").
  { destruct req as [[formError|fd]].
    - injection HP as <- _. discriminate.
    - destruct (both_files_dec fd) as [(u & c & Hu & Hc)|H].
      + rewrite (POST_calls_model generateContent fd u c w Hu Hc) in HP.
        cbv zeta in HP. injection HP as <- _.
        destruct (generateContent (Route.request_for u c))
          as [[m|r]|rsp]; cbn in Hb; try (injection Hb as <- _; reflexivity).
        destruct (Route.process_response rsp) as [x|x]; cbn in Hb, Hs;
          [injection Hb as <- _; reflexivity | discriminate].
      + rewrite (POST_not_both_files generateContent fd w H) in HP.
        injection HP as <- _.
        destruct (negb (Route.entry_truthy
                          (Route.FormData_get "userImage" fd))
                  || negb (Route.entry_truthy
                             (Route.FormData_get "clothingImage" fd)));
          cbn in Hb, Hs; [discriminate|].
        injection Hb as <- _. reflexivity. }
  split; [exact E|].
  unfold Page.handleSubmit_settle, Page.try_block.
  rewrite Hj, Hok, He. subst e. repeat split.
Qed.

(** *** The further properties on concrete inputs, continued *)

Lemma POST_text_field_witness :
  (Route.FormData_get "userImage" Cases.text_form
   = Some (Route.EntryString "hello")
   /\ Route.entry_truthy (Route.FormData_get "clothingImage" Cases.text_form)
      = true)
  /\ exists resp,
       Route.POST (Samples.answering Samples.empty_response)
         {| Route.formData := inr Cases.text_form |} []
       = (inr resp, [])
       /\ Route.status resp = 500%Z.
Proof.
  split; [split; reflexivity|].
  exact (POST_text_field (Samples.answering Samples.empty_response)
           Cases.text_form "hello" []
           (or_introl (conj eq_refl eq_refl))).
Defined.

Lemma POST_model_failure_witness :
  Cases.failing (Route.request_for Samples.person Samples.garment)
  = inl (Js.ErrorObj "quota exceeded")
  /\ Route.POST Cases.failing {| Route.formData := inr Samples.form |} []
     = (inr {| Route.status := 500;
               Route.body :=
                 Route.ErrorBody "Failed to process virtual try-on request"
                   (Some "Failed during API call: quota exceeded") |},
        [Route.request_for Samples.person Samples.garment]).
Proof.
  split; [reflexivity|].
  exact (POST_model_failure Cases.failing Samples.form
           Samples.person Samples.garment []
           (Js.ErrorObj "quota exceeded") eq_refl eq_refl eq_refl).
Defined.

Lemma POST_result_well_formed_witness :
  Route.POST
    (Samples.answering (Samples.one_candidate Samples.one_image_one_text))
    {| Route.formData := inr Samples.form |} []
  = (inr {| Route.status := 200;
            Route.body :=
              Route.ResultBody (Some "data:image/png;base64,AAAA")
                "Here is the result." |},
     [Route.request_for Samples.person Samples.garment])
  /\ exists image description,
       Route.ResultBody (Some "data:image/png;base64,AAAA")
         "Here is the result."
       = Route.ResultBody image description
       /\ description <> ""
       /\ forall url, image = Some url ->
            exists m d,
              url = "data:" ++ m ++ ";base64," ++ d /\ m <> "" /\ d <> "".
Proof.
  split; [reflexivity|].
  exact (POST_result_well_formed
           (Samples.answering
              (Samples.one_candidate Samples.one_image_one_text))
           {| Route.formData := inr Samples.form |} []
           [Route.request_for Samples.person Samples.garment]
           {| Route.status := 200;
              Route.body :=
                Route.ResultBody (Some "data:image/png;base64,AAAA")
                  "Here is the result." |}
           eq_refl eq_refl).
Defined.

Lemma POST_one_image_one_text_witness :
  filter Route.has_inline Samples.one_image_one_text
  = [Route.inline_part "image/png" "AAAA"]
  /\ filter Route.is_text Samples.one_image_one_text
     = [Route.text_part "Here is the result."]
  /\ "AAAA" <> ""
  /\ Route.POST
       (Samples.answering (Samples.one_candidate Samples.one_image_one_text))
       {| Route.formData := inr Samples.form |} []
     = (inr {| Route.status := 200;
               Route.body :=
                 Route.ResultBody (Some "data:image/png;base64,AAAA")
                   "Here is the result." |},
        [Route.request_for Samples.person Samples.garment]).
Proof.
  split; [reflexivity|]. split; [reflexivity|].
  assert (Hd : "AAAA" <> "") by discriminate.
  split; [exact Hd|].
  exact (POST_one_image_one_text
           (Samples.answering
              (Samples.one_candidate Samples.one_image_one_text))
           Samples.form Samples.person Samples.garment []
           (Samples.one_candidate Samples.one_image_one_text)
           _ [] Samples.one_image_one_text
           (Route.inline_part "image/png" "AAAA")
           (Route.text_part "Here is the result.")
           (Some "image/png") "AAAA" "Here is the result."
           eq_refl eq_refl eq_refl eq_refl eq_refl eq_refl eq_refl
           Hd eq_refl eq_refl).
Defined.

Lemma session_size_limit_witness :
  Page.userImage
    (Session.state (Session.run Traces.oversize_while_pending Session.start))
  = Some Samples.photo
  /\ In Traces.tryon_request
       (Session.sent
          (Session.run Traces.oversize_while_pending Session.start))
  /\ (Page.size Samples.photo <= 10 * 1024 * 1024)%Z
  /\ exists u c,
       Page.body Traces.tryon_request
       = [("userImage", u); ("clothingImage", c)]
       /\ (Page.size u <= 10 * 1024 * 1024)%Z
       /\ (Page.size c <= 10 * 1024 * 1024)%Z.
Proof.
  split; [reflexivity|].
  assert (Hin : In Traces.tryon_request
                  (Session.sent
                     (Session.run Traces.oversize_while_pending
                        Session.start)))
    by (left; reflexivity).
  split; [exact Hin|].
  pose proof (session_size_limit Traces.oversize_while_pending) as H.
  cbv zeta in H. destruct H as (Hu & _ & Hs).
  split; [exact (Hu Samples.photo eq_refl)|].
  exact (Hs Traces.tryon_request Hin).
Defined.

Lemma session_loading_witness :
  Page.isLoading (Session.state (Session.run Cases.submitted Session.start))
  = true
  /\ Page.resultImageUrl
       (Session.state (Session.run Cases.submitted Session.start))
     = None
  /\ Session.in_flight (Session.run Cases.submitted Session.start) <> [].
Proof.
  split; [reflexivity|].
  exact (session_loading Cases.submitted eq_refl).
Defined.

Lemma submit_button_guard_witness :
  View.submit_disabled Samples.both_selected = false
  /\ (Page.userImage Samples.person_removed = None
      \/ Page.clothingImage Samples.person_removed = None)
  /\ (exists u c,
        Page.userImage Samples.both_selected = Some u
        /\ Page.clothingImage Samples.both_selected = Some c
        /\ snd (Page.handleSubmit_begin Samples.both_selected)
           = Some {| Page.url := "/api/tryon"; Page.method := "POST";
                     Page.body := [("userImage", u);
                                   ("clothingImage", c)] |}
        /\ View.submit_disabled
             (fst (Page.handleSubmit_begin Samples.both_selected))
           = true)
  /\ View.submit_disabled Samples.person_removed = true.
Proof.
  split; [reflexivity|]. split; [left; reflexivity|]. split.
  - exact (proj1 (submit_button_guard Samples.both_selected) eq_refl).
  - exact (proj2 (submit_button_guard Samples.person_removed)
             (or_introl eq_refl)).
Defined.


Lemma reset_session_witness :
  Page.generated_image
    (Samples.network_ok Traces.tryon_request)
  = Some "data:image/png;base64,AAAA"
  /\ Session.state
       (Session.step Session.Reset
          (Session.run Cases.submitted Session.start))
     = Page.initial
  /\ Session.in_flight
       (Session.step Session.Reset
          (Session.run Cases.submitted Session.start))
     = [Traces.tryon_request]
  /\ Page.resultImageUrl
       (Page.handleSubmit_settle
          (Samples.network_ok Traces.tryon_request) Page.initial)
     = Some "data:image/png;base64,AAAA".
Proof.
  split; [reflexivity|].
  pose proof (reset_session (Session.run Cases.submitted Session.start))
    as (Hs & _ & _ & _ & Hf & Hr).
  split; [exact Hs|]. split; [exact Hf|].
  exact (Hr (Samples.network_ok Traces.tryon_request) _ eq_refl).
Defined.

Lemma preview_follows_last_reader_witness :
  (Page.size Samples.photo <= 10 * 1024 * 1024)%Z
  /\ (Page.size Samples.shirt <= 10 * 1024 * 1024)%Z
  /\ exists rf rg,
       snd (Page.onUserImageChange (Some Samples.photo) Page.initial)
       = Some rf
       /\ snd (Page.onUserImageChange (Some Samples.shirt)
                 (fst (Page.onUserImageChange (Some Samples.photo)
                         Page.initial)))
          = Some rg
       /\ (forall uf ug,
             let st2 :=
               fst (Page.onUserImageChange (Some Samples.shirt)
                      (fst (Page.onUserImageChange (Some Samples.photo)
                              Page.initial))) in
             let st4 := Page.reader_done rf uf (Page.reader_done rg ug st2) in
             Page.userImage st4 = Some Samples.shirt
             /\ Page.userImagePreview st4 = uf)
       /\ (forall uf,
             let st2 :=
               fst (Page.onUserImageChange None
                      (fst (Page.onUserImageChange (Some Samples.photo)
                              Page.initial))) in
             let st3 := Page.reader_done rf uf st2 in
             Page.userImage st3 = None /\ Page.userImagePreview st3 = uf).
Proof.
  assert (Hf : (Page.size Samples.photo <= 10 * 1024 * 1024)%Z)
    by (cbn; lia).
  assert (Hg : (Page.size Samples.shirt <= 10 * 1024 * 1024)%Z)
    by (cbn; lia).
  split; [exact Hf|]. split; [exact Hg|].
  exact (preview_follows_last_reader Samples.photo Samples.shirt
           Page.initial Hf Hg).
Defined.

Lemma server_error_as_shown_witness :
  Route.POST (Samples.answering Samples.blocked)
    {| Route.formData := inr Samples.form |} []
  = (inr {| Route.status := 500;
            Route.body :=
              Route.ErrorBody "Failed to process virtual try-on request"
                (Some "Content generation failed due to safety settings: SAFETY") |},
     [Route.request_for Samples.person Samples.garment])
  /\ Page.error
       (Page.handleSubmit_settle (inr Cases.response_500)
          Samples.both_selected)
     = Some "Failed to process virtual try-on request"
  /\ View.shows_safety_hint
       (Page.handleSubmit_settle (inr Cases.response_500)
          Samples.both_selected)
     = false.
Proof.
  split; [reflexivity|].
  pose proof (server_error_as_shown (Samples.answering Samples.blocked)
                {| Route.formData := inr Samples.form |} []
                [Route.request_for Samples.person Samples.garment]
                {| Route.status := 500;
                   Route.body :=
                     Route.ErrorBody
                       "Failed to process virtual try-on request"
                       (Some "Content generation failed due to safety settings: SAFETY") |}
                "Failed to process virtual try-on request"
                (Some "Content generation failed due to safety settings: SAFETY")
                Cases.response_500 Cases.result_500 Samples.both_selected
                eq_refl eq_refl eq_refl eq_refl eq_refl eq_refl)
    as (_ & He & _ & Hh).
  split; [exact He | exact Hh].
Defined.
